(** * pysyquantis: the QuantisGenerator wrapper around the easyquantis tool

    A shallow embedding of [pysyquantis/core.py] and [pysyquantis/exceptions.py].

    The generator talks to its environment (the file system through
    [pathlib], the random module, [subprocess.run]); every such call is an
    event of a small free monad, so that a method of the class is a finite
    tree of environment calls.  A tree is run against any environment
    ([handler]) and, for executable examples, against a small POSIX-like
    world ([Posix]). *)

From Stdlib Require Import ZArith String Ascii DecimalString.
From stdpp Require Import base gmap strings list.

Local Open Scope Z_scope.

(** ** Python values and exceptions *)

Module Py.

(** [str(n)] for a Python [int]. *)
Definition str_Z (z : Z) : string := NilZero.string_of_int (Z.to_int z).

(** [sep.join(parts)]. *)
Definition join (sep : string) (parts : list string) : string :=
  String.concat sep parts.

(** The [OSError] family, as far as the wrapper tells its members apart. *)
Inductive os_error : Type :=
  | FileNotFoundError
  | PermissionError
  | IsADirectoryError
  | NotADirectoryError
  | OtherOSError.

(** [exceptions.py]: three refinements of [QuantisError], next to the
    built-in exceptions the environment can raise. *)
Inductive exn : Type :=
  | QuantisValidationError (msg : string)
  | QuantisNotFoundError (msg : string)
  | QuantisExecutionError (msg : string)
  | OSError (k : os_error)
  | ValueError.

(** [isinstance(e, QuantisError)]. *)
Definition is_QuantisError (e : exn) : bool :=
  match e with
  | QuantisValidationError _ | QuantisNotFoundError _
  | QuantisExecutionError _ => true
  | _ => false
  end.

(** [except FileNotFoundError]. *)
Definition is_FileNotFoundError (e : exn) : bool :=
  match e with OSError FileNotFoundError => true | _ => false end.

(** [except (PermissionError, OSError)]: [PermissionError] is a subclass of
    [OSError], so the clause catches the whole family. *)
Definition is_PermissionError_or_OSError (e : exn) : bool :=
  match e with OSError _ => true | _ => false end.

(** [except (QuantisNotFoundError, QuantisExecutionError)]. *)
Definition is_NotFound_or_Execution (e : exn) : bool :=
  match e with
  | QuantisNotFoundError _ | QuantisExecutionError _ => true
  | _ => false
  end.

(** The outcome of a Python call: a value or a raised exception. *)
Inductive result (A : Type) : Type :=
  | Ok (a : A)
  | Raise (e : exn).
Arguments Ok {A} a.
Arguments Raise {A} e.

(** What [subprocess.run(..., capture_output=True, check=False)] returns. *)
Record completed : Type := Completed { returncode : Z; stderr : string }.

(** The values accepted as [min_val]/[max_val]: anything with [>=] and
    [str] ([int] for integers, [float] for floats). *)
Class Number (V : Type) : Type := {
  ge : V -> V -> bool;
  str : V -> string
}.

#[export] Instance Number_int : Number Z := {| ge := Z.geb; str := str_Z |}.

End Py.
Export Py.

(** ** Environment calls

    What the generator asks of its environment, with the type of the
    answer: [Path.exists()] and [Path.is_dir()] (which answer [False]
    rather than raise), [Path.touch()] and [Path.unlink()] (which succeed
    or raise an [OSError]), [open(p, "w")] and the write through the
    opened file, [random.randint], [os.path.exists] and
    [subprocess.run(cmd, capture_output=True, text=True, check=False)]. *)

Inductive event : Type -> Type :=
  | PathExists (p : string) : event bool
  | PathIsDir (p : string) : event bool
  | PathTouch (p : string) : event (option os_error)
  | PathUnlink (p : string) : event (option os_error)
  | FileOpenW (p : string) : event (option exn)
  | FileWrite (p : string) (data : string) : event (option exn)
  | RandInt (lo hi : Z) : event Z
  | OsPathExists (p : string) : event bool
  | SubprocessRun (cmd : list string) : event (result completed).

(** A program: a finite tree of environment calls. *)
Inductive Prog (A : Type) : Type :=
  | Ret (a : A)
  | Vis {X : Type} (e : event X) (k : X -> Prog A).
Arguments Ret {A} a.
Arguments Vis {A X} e k.

(** A Python computation: a program whose answer is a value or an
    exception. *)
Definition py (A : Type) : Type := Prog (result A).

Definition ret {A} (a : A) : py A := Ret (Ok a).
Definition raise {A} (e : exn) : py A := Ret (Raise e).

Fixpoint bind {A B} (p : py A) (f : A -> py B) : py B :=
  match p with
  | Ret (Ok a) => f a
  | Ret (Raise e) => Ret (Raise e)
  | Vis e k => Vis e (fun x => bind (k x) f)
  end.

(** [try: p  except <matches>: body]. *)
Fixpoint try_except {A} (p : py A) (matches : exn -> bool)
    (body : exn -> py A) : py A :=
  match p with
  | Ret (Ok a) => Ret (Ok a)
  | Ret (Raise e) => if matches e then body e else Ret (Raise e)
  | Vis e k => Vis e (fun x => try_except (k x) matches body)
  end.

(** An environment call that returns its answer. *)
Definition call {X} (e : event X) : py X := Vis e (fun x => Ret (Ok x)).

(** An environment call that either succeeds or raises. *)
Definition call_raising {E} (inj : E -> exn) (e : event (option E)) : py unit :=
  Vis e (fun r => match r with
                  | None => Ret (Ok tt)
                  | Some err => Ret (Raise (inj err))
                  end).

Declare Scope py_scope.
Delimit Scope py_scope with py.
Notation "x <- c1 ;; c2" := (bind c1 (fun x => c2))
  (at level 100, c1 at next level, right associativity) : py_scope.
Notation "c1 ;; c2" := (bind c1 (fun _ => c2))
  (at level 100, right associativity) : py_scope.

(** [for x in xs: body x]. *)
Fixpoint for_each {A} (xs : list A) (body : A -> py unit) : py unit :=
  match xs with
  | [] => ret tt
  | x :: rest => bind (body x) (fun _ => for_each rest body)
  end.

(** [enumerate(xs)]. *)
Fixpoint enumerate_from {A} (i : nat) (xs : list A) : list (nat * A) :=
  match xs with
  | [] => []
  | x :: rest => (i, x) :: enumerate_from (S i) rest
  end.
Definition enumerate {A} (xs : list A) : list (nat * A) := enumerate_from 0 xs.

(** ** pathlib

    [Path] objects are represented by their [str]; the flavour (POSIX or
    Windows) fixes how a string is normalised, what its parent is and how a
    name is joined to it. *)

Class PathFlavour : Type := {
  Path : string -> string;
  parent : string -> string;
  joinpath : string -> string -> string
}.

(** The POSIX flavour, [pathlib.PurePosixPath]. *)
Module PosixPath.

(** [s.split("/")]. *)
Fixpoint split_sep (s : string) : list string :=
  match s with
  | EmptyString => [EmptyString]
  | String c r =>
      if Ascii.eqb c "/" then EmptyString :: split_sep r
      else match split_sep r with
           | [] => [String c EmptyString]
           | h :: t => String c h :: t
           end
  end.

(** [s.startswith("/")] and [s.endswith("/")]. *)
Definition starts_with_sep (s : string) : bool :=
  match s with
  | String c _ => Ascii.eqb c "/"
  | EmptyString => false
  end.

Fixpoint ends_with_sep (s : string) : bool :=
  match s with
  | EmptyString => false
  | String c EmptyString => Ascii.eqb c "/"
  | String _ r => ends_with_sep r
  end.

(** [s[1:]]. *)
Definition behead (s : string) : string :=
  match s with
  | String _ r => r
  | EmptyString => EmptyString
  end.

(** [posixpath.splitroot]: no leading slash; exactly two leading slashes;
    any other number of them, which counts as one. *)
Definition splitroot (p : string) : string * string :=
  if negb (starts_with_sep p) then (""%string, p)
  else if negb (starts_with_sep (behead p))
          || starts_with_sep (behead (behead p))
       then ("/"%string, behead p)
       else ("//"%string, behead (behead p)).

(** The parsed tail: the components that are neither empty nor ["."]. *)
Definition tail_of (rel : string) : list string :=
  filter (fun x => x ≠ EmptyString ∧ x ≠ "."%string) (split_sep rel).

Definition parse (p : string) : string * list string :=
  let '(root, rel) := splitroot p in (root, tail_of rel).

Definition format_parts (root : string) (tl : list string) : string :=
  let s := (root +:+ join "/" tl) in
  if String.eqb s "" then "." else s.

(** [str(PurePosixPath(p))]. *)
Definition to_str (p : string) : string :=
  let '(root, tl) := parse p in format_parts root tl.

(** [str(PurePosixPath(p).parent)]. *)
Definition parent_str (p : string) : string :=
  let '(root, tl) := parse p in
  match tl with
  | [] => format_parts root tl
  | _ => format_parts root (removelast tl)
  end.

(** [posixpath.join(a, b)]. *)
Definition os_path_join (a b : string) : string :=
  if starts_with_sep b then b
  else if String.eqb a "" || ends_with_sep a then a +:+ b
  else a +:+ "/" +:+ b.

(** [str(PurePosixPath(a) / b)]. *)
Definition joinpath_str (a b : string) : string := to_str (os_path_join a b).

#[export] Instance flavour : PathFlavour :=
  {| Path := to_str; parent := parent_str; joinpath := joinpath_str |}.

(** A string without separator. *)
Definition plain (c : string) : Prop := split_sep c = [c].

(** A component of a parsed path. *)
Definition component (c : string) : Prop :=
  plain c /\ c <> EmptyString /\ c <> "."%string.

Definition root (r : string) : Prop :=
  r = ""%string \/ r = "/"%string \/ r = "//"%string.

(** A string that is its own normal form. *)
Definition normal (s : string) : Prop := to_str s = s.

End PosixPath.

(** ** core.py: class QuantisGenerator *)

Module QuantisGenerator.

(** The instance attributes set by [__init__]. *)
Record t : Type := {
  usb_device_index : Z;
  easyquantis_path : string;
  test_mode : bool
}.

(** [QuantisGenerator()] with the default arguments of [__init__]. *)
Definition default : t :=
  {| usb_device_index := 0; easyquantis_path := "easyquantis";
     test_mode := false |}.

Section Methods.
Context {fl : PathFlavour}.
Local Open Scope py_scope.

(** [_execute_command(self, args)]. *)
Definition _execute_command (self : t) (args : list string) : py unit :=
  if test_mode self then
    for_each (enumerate args) (fun '(i, arg) =>
      if bool_decide (arg ∈ ["-b"; "-i"; "-f"]%string)
         && bool_decide (i + 1 < length args)%nat then
        let output_path := nth (i + 1) args ""%string in
        if negb (bool_decide (output_path ∈ ["/dev/null"; "nul"]%string)) then
          call_raising id (FileOpenW output_path) ;;
          r <- call (RandInt 1000 9999) ;;
          call_raising id (FileWrite output_path ("test_data_" +:+ str_Z r))
        else ret tt
      else ret tt)
  else
    let cmd := [easyquantis_path self; "-u"%string;
                str_Z (usb_device_index self)] ++ args in
    result <- try_except
      (Vis (SubprocessRun cmd) (fun r => Ret r))
      is_FileNotFoundError
      (fun _ => raise (QuantisNotFoundError
         ("easyquantis executable not found: " +:+ easyquantis_path self))) ;;
    if negb (returncode result =? 0) then
      raise (QuantisExecutionError
        ("Command failed: " +:+ Py.join " " cmd +:+ "
Error: " +:+ stderr result))
    else ret tt.

(** [_validate_inputs(self, count, output_path)]. *)
Definition _validate_inputs (self : t) (count : Z) (output_path : string)
    : py unit :=
  if count <=? 0 then
    raise (QuantisValidationError "Count must be positive")
  else
  let path := Path output_path in
  if bool_decide (path ∈ ["/dev/null"; "nul"]%string) then ret tt
  else
  is_existing_dir <-
    (e <- call (PathExists path) ;;
     if e then call (PathIsDir path) else ret false) ;;
  if is_existing_dir then
    raise (QuantisValidationError
      ("Output path is a directory: " +:+ output_path
       +:+ ". Please specify a filename."))
  else
  let parent := parent path in
  parent_exists <- call (PathExists parent) ;;
  if negb parent_exists then
    raise (QuantisValidationError ("Directory does not exist: " +:+ parent))
  else
  parent_is_dir <- call (PathIsDir parent) ;;
  if negb parent_is_dir then
    raise (QuantisValidationError
      ("Parent path is not a directory: " +:+ parent))
  else
  try_except
    (let test_file := joinpath parent ".write_test" in
     call_raising OSError (PathTouch test_file) ;;
     call_raising OSError (PathUnlink test_file))
    is_PermissionError_or_OSError
    (fun _ => raise (QuantisValidationError
       ("No write permission for directory: " +:+ parent))).

(** [generate_binary(self, count, output_path)]. *)
Definition generate_binary (self : t) (count : Z) (output_path : string)
    : py unit :=
  _validate_inputs self count output_path ;;
  let args := ["-b"; output_path; "-n"; str_Z count]%string in
  _execute_command self args.

Section Bounded.
Context {V : Type} `{Number V}.

(** [generate_integers(self, count, output_path, min_val, max_val,
    separator)]; [None] is an omitted optional argument. *)
Definition generate_integers (self : t) (count : Z) (output_path : string)
    (min_val max_val : option V) (separator : option string) : py unit :=
  _validate_inputs self count output_path ;;
  if match min_val, max_val with
     | Some lo, Some hi => ge lo hi
     | _, _ => false
     end
  then raise (QuantisValidationError
                "Minimum value must be less than maximum value")
  else
  let args := ["-i"; output_path; "-n"; str_Z count]%string in
  let args := match min_val with
              | Some v => args ++ ["--min"%string; str v]
              | None => args
              end in
  let args := match max_val with
              | Some v => args ++ ["--max"%string; str v]
              | None => args
              end in
  let args := match separator with
              | Some s => args ++ ["-s"%string; s]
              | None => args
              end in
  _execute_command self args.

(** [generate_floats(self, count, output_path, min_val, max_val,
    separator)]. *)
Definition generate_floats (self : t) (count : Z) (output_path : string)
    (min_val max_val : option V) (separator : option string) : py unit :=
  _validate_inputs self count output_path ;;
  if match min_val, max_val with
     | Some lo, Some hi => ge lo hi
     | _, _ => false
     end
  then raise (QuantisValidationError
                "Minimum value must be less than maximum value")
  else
  let args := ["-f"; output_path; "-n"; str_Z count]%string in
  let args := match min_val with
              | Some v => args ++ ["--min"%string; str v]
              | None => args
              end in
  let args := match max_val with
              | Some v => args ++ ["--max"%string; str v]
              | None => args
              end in
  let args := match separator with
              | Some s => args ++ ["-s"%string; s]
              | None => args
              end in
  _execute_command self args.

End Bounded.

(** [is_ready(self)]. *)
Definition is_ready (self : t) : py bool :=
  if test_mode self then ret true
  else
    try_except
      (dev_null <- call (OsPathExists "/dev/null") ;;
       let null_path := (if dev_null then "/dev/null" else "nul")%string in
       generate_binary self 1 null_path ;;
       ret true)
      is_NotFound_or_Execution
      (fun _ => ret false).

End Methods.
End QuantisGenerator.
Import QuantisGenerator.

(** ** Running a program against an environment *)

(** One answered environment call. *)
Inductive entry : Type :=
  | Did {X : Type} (e : event X) (x : X).

(** An environment with states [W]: every call is answered and may change
    the state. *)
Record handler (W : Type) : Type := {
  respond : forall X : Type, event X -> W -> X * W
}.
Arguments respond {W} h {X} e w.

(** [run h p w]: the calls made with their answers, the final state and the
    answer of the program. *)
Fixpoint run {W A} (h : handler W) (p : Prog A) (w : W)
    : list entry * W * A :=
  match p with
  | Ret a => ([], w, a)
  | Vis e k =>
      let '(x, w1) := respond h e w in
      let '(log, w2, a) := run h (k x) w1 in
      (Did e x :: log, w2, a)
  end.

Definition trace {W A} (o : list entry * W * A) : list entry := o.1.1.
Definition final {W A} (o : list entry * W * A) : W := o.1.2.
Definition answer {W A} (o : list entry * W * A) : A := o.2.

(** The command lines handed to [subprocess.run]. *)
Definition spawned_by (en : entry) : list (list string) :=
  match en with
  | Did e _ =>
      match e with
      | SubprocessRun cmd => [cmd]
      | _ => []
      end
  end.
Definition spawned (log : list entry) : list (list string) :=
  flat_map spawned_by log.

(** The paths the program asked the file system to create, change or
    remove. *)
Definition written_by (en : entry) : list string :=
  match en with
  | Did e _ =>
      match e with
      | PathTouch p | PathUnlink p | FileOpenW p | FileWrite p _ => [p]
      | _ => []
      end
  end.
Definition written (log : list entry) : list string :=
  flat_map written_by log.


(** ** A POSIX-like world

    Files and directories are keyed by their normalised path.  A directory
    is read-only, append-only (entries can be created but not removed, as
    with [chattr +a]) or writable.  Installed executables answer every
    command line with a fixed exit status and error text. *)

Module Posix.

Inductive dir_mode : Type := ReadOnly | AppendOnly | Writable.

Inductive node : Type :=
  | File (content : string) (writable : bool)
  | Dir (mode : dir_mode).

Record world : Type := {
  fs : gmap string node;
  entropy : list Z;
  programs : gmap string completed
}.

Definition with_fs (w : world) (m : gmap string node) : world :=
  {| fs := m; entropy := entropy w; programs := programs w |}.

(** How the kernel resolves a path string: repeated separators and ["."]
    components do not matter (there are no symbolic links, and [".."] is
    not followed). *)
Definition key (p : string) : string := PosixPath.to_str p.

(** [os.stat] succeeds. *)
Definition exists_ (m : gmap string node) (k : string) : bool :=
  match m !! k with Some _ => true | None => false end.

Definition is_dir (m : gmap string node) (k : string) : bool :=
  match m !! k with Some (Dir _) => true | _ => false end.

(** Why a new entry [k] cannot be created, if it cannot. *)
Definition create_error (m : gmap string node) (k : string)
    : option os_error :=
  match m !! PosixPath.parent_str k with
  | None => Some FileNotFoundError
  | Some (File _ _) => Some NotADirectoryError
  | Some (Dir ReadOnly) => Some PermissionError
  | Some (Dir _) => None
  end.

(** [Path.touch()]: update the times of an existing entry, or create an
    empty file. *)
Definition touch (m : gmap string node) (k : string)
    : option os_error * gmap string node :=
  match m !! k with
  | Some (File _ true) => (None, m)
  | Some (File _ false) => (Some PermissionError, m)
  | Some (Dir ReadOnly) => (Some IsADirectoryError, m)
  | Some (Dir _) => (None, m)
  | None =>
      match create_error m k with
      | Some err => (Some err, m)
      | None => (None, <[k := File "" true]> m)
      end
  end.

(** [Path.unlink()]. *)
Definition unlink (m : gmap string node) (k : string)
    : option os_error * gmap string node :=
  match m !! k with
  | None => (Some FileNotFoundError, m)
  | Some (Dir _) => (Some IsADirectoryError, m)
  | Some (File _ _) =>
      match m !! PosixPath.parent_str k with
      | Some (Dir Writable) => (None, delete k m)
      | _ => (Some PermissionError, m)
      end
  end.

(** [open(p, "w")]: create or truncate. *)
Definition open_w (m : gmap string node) (p : string)
    : option exn * gmap string node :=
  if String.eqb p "" then (Some (OSError FileNotFoundError), m)
  else if PosixPath.ends_with_sep p then (Some (OSError IsADirectoryError), m)
  else
    let k := key p in
    match m !! k with
    | Some (Dir _) => (Some (OSError IsADirectoryError), m)
    | Some (File _ false) => (Some (OSError PermissionError), m)
    | Some (File _ true) => (None, <[k := File "" true]> m)
    | None =>
        match create_error m k with
        | Some err => (Some (OSError err), m)
        | None => (None, <[k := File "" true]> m)
        end
    end.

(** [f.write(data)] and closing [f]. *)
Definition write (m : gmap string node) (p : string) (data : string)
    : option exn * gmap string node :=
  let k := key p in
  match m !! k with
  | Some (File _ wr) => (None, <[k := File data wr]> m)
  | _ => (Some (OSError OtherOSError), m)
  end.

(** [random.randint(lo, hi)]: the next number of the entropy source,
    brought into [lo..hi]. *)
Definition randint (lo hi : Z) (src : list Z) : Z * list Z :=
  match src with
  | [] => (lo, [])
  | x :: rest => (lo + x mod (hi - lo + 1), rest)
  end.

(** [subprocess.run(cmd)]: the executable is looked up by the first word. *)
Definition subprocess_run (w : world) (cmd : list string)
    : result completed :=
  match programs w !! hd ""%string cmd with
  | Some c => Ok c
  | None => Raise (OSError FileNotFoundError)
  end.

Definition respond_posix (X : Type) (e : event X) (w : world) : X * world :=
  match e in event T return T * world with
  | PathExists p => (exists_ (fs w) (key p), w)
  | PathIsDir p => (is_dir (fs w) (key p), w)
  | PathTouch p => let '(r, m) := touch (fs w) (key p) in (r, with_fs w m)
  | PathUnlink p => let '(r, m) := unlink (fs w) (key p) in (r, with_fs w m)
  | FileOpenW p => let '(r, m) := open_w (fs w) p in (r, with_fs w m)
  | FileWrite p data => let '(r, m) := write (fs w) p data in (r, with_fs w m)
  | RandInt lo hi =>
      let '(x, rest) := randint lo hi (entropy w) in
      (x, {| fs := fs w; entropy := rest; programs := programs w |})
  | OsPathExists p => (exists_ (fs w) (key p), w)
  | SubprocessRun cmd => (subprocess_run w cmd, w)
  end.

Definition os : handler world := {| respond := respond_posix |}.

(** The [stat] calls made on the output path. *)
Definition stat_log (m : gmap string node) (k : string) : list entry :=
  if exists_ m k
  then [Did (PathExists k) true; Did (PathIsDir k) (is_dir m k)]
  else [Did (PathExists k) false].

(** The write probe on marker [k] goes through: the directory of [k] is
    writable and [k] is free or a writable file. *)
Definition probe_ok (m : gmap string node) (k : string) : Prop :=
  m !! PosixPath.parent_str k = Some (Dir Writable)
  /\ (m !! k = None \/ exists c, m !! k = Some (File c true)).

(** [open(p, "w")] goes through: [p] names a writable file, or a free name
    in a directory that takes new entries. *)
Definition open_ok (m : gmap string node) (p : string) : Prop :=
  p <> EmptyString /\ PosixPath.ends_with_sep p = false
  /\ ((exists c, m !! key p = Some (File c true))
      \/ (m !! key p = None
          /\ exists mode, m !! PosixPath.parent_str (key p) = Some (Dir mode)
                          /\ mode <> ReadOnly)).

(** The world after a placeholder has been written at [p]. *)
Definition after_placeholder (w : world) (p : string) : world :=
  let '(x, rest) := randint 1000 9999 (entropy w) in
  {| fs := <[key p := File ("test_data_" +:+ str_Z x) true]> (fs w);
     entropy := rest; programs := programs w |}.

(** The world after the execution step of a test-mode [generate_binary]
    call that went through, and what it takes to go through. *)
Definition after_first_placeholder (wv : world) (output_path : string)
    : world :=
  if bool_decide (output_path ∈ ["/dev/null"; "nul"]%string) then wv
  else after_placeholder wv output_path.

Definition after_execute_binary (wv : world) (output_path : string) : world :=
  let wa := after_first_placeholder wv output_path in
  if bool_decide (output_path ∈ ["-b"; "-i"; "-f"]%string)
  then after_placeholder wa "-n" else wa.

Definition execute_binary_ok (wv : world) (output_path : string) : Prop :=
  (output_path ∈ ["/dev/null"; "nul"]%string
   \/ open_ok (fs wv) output_path)
  /\ (output_path ∉ ["-b"; "-i"; "-f"]%string
      \/ open_ok (fs (after_first_placeholder wv output_path)) "-n").

(** What reading the file at [p] returns. *)
Definition read (w : world) (p : string) : option string :=
  match fs w !! key p with
  | Some (File content _) => Some content
  | _ => None
  end.

End Posix.

(** ** Example configurations and worlds *)

Module Examples.
Import Posix.

(** [QuantisGenerator(test_mode=True)]. *)
Definition tester : QuantisGenerator.t :=
  {| usb_device_index := 0; easyquantis_path := "easyquantis";
     test_mode := true |}.

(** [QuantisGenerator(easyquantis_path=path)]. *)
Definition with_tool (path : string) : QuantisGenerator.t :=
  {| usb_device_index := 0; easyquantis_path := path; test_mode := false |}.

(** A machine with a writable [/x] and current directory, an append-only
    [/data], a read-only [/ro], the null device, a working [easyquantis]
    and a tool that fails with exit status 1. *)
Definition machine : world :=
  {| fs := list_to_map
       [("/", Dir ReadOnly); ("/dev", Dir ReadOnly);
        ("/dev/null", File "" true); ("/x", Dir Writable);
        (".", Dir Writable); ("/data", Dir AppendOnly);
        ("/ro", Dir ReadOnly); ("/etc", Dir ReadOnly);
        ("/etc/hosts", File "127.0.0.1 localhost" false)]%string;
     entropy := [4711; 42; 2023];
     programs := list_to_map
       [("easyquantis", Completed 0 "");
        ("broken", Completed 1 "Device not found")]%string |}.

End Examples.

(** ** Statements taken from the specification *)

Section SpecSide.
Context {V : Type} `{Number V}.

(** The argument vector of the process invocation contract:
    [[executable_path, "-u", device_index, <kind-flag>, output_path, "-n",
    count]] followed by the optional pairs, in that order. *)
Definition invocation_vector (self : QuantisGenerator.t) (kind_flag : string)
    (count : Z) (output_path : string) (min_val max_val : option V)
    (separator : option string) : list string :=
  [easyquantis_path self; "-u"; str_Z (usb_device_index self);
   kind_flag; output_path; "-n"; str_Z count]%string
  ++ match min_val with Some v => ["--min"%string; str v] | None => [] end
  ++ match max_val with Some v => ["--max"%string; str v] | None => [] end
  ++ match separator with Some s => ["-s"%string; s] | None => [] end.

(** Both bounds are supplied and [min >= max]. *)
Definition bounds_out_of_order (min_val max_val : option V) : bool :=
  match min_val, max_val with
  | Some lo, Some hi => ge lo hi
  | _, _ => false
  end.

(** The contract shared by the bounded kinds: the common validation, the
    ordering check, and the invocation vector of the kind (the execution
    primitive puts the executable and the device selector in front). *)
Definition bounded_contract {fl : PathFlavour} (kind_flag : string)
    (self : QuantisGenerator.t) (count : Z) (output_path : string)
    (min_val max_val : option V) (separator : option string) : py unit :=
  bind (_validate_inputs self count output_path) (fun _ =>
    if bounds_out_of_order min_val max_val then
      raise (QuantisValidationError
               "Minimum value must be less than maximum value")
    else
      _execute_command self
        (drop 3 (invocation_vector self kind_flag count output_path
                   min_val max_val separator))).

End SpecSide.

(** The placeholder write of test mode: open the file, draw the suffix,
    write the data. *)
Definition placeholder (output_path : string) : py unit :=
  bind (call_raising id (FileOpenW output_path)) (fun _ =>
  bind (call (RandInt 1000 9999)) (fun r =>
  call_raising id (FileWrite output_path ("test_data_" +:+ str_Z r)))).

(** A recognised null/discard sentinel: the normalised path is
    ["/dev/null"] or ["nul"]. *)
Definition is_sentinel {fl : PathFlavour} (output_path : string) : bool :=
  bool_decide (Path output_path ∈ ["/dev/null"; "nul"]%string).

(** The marker of the write-permission probe. *)
Definition marker {fl : PathFlavour} (output_path : string) : string :=
  joinpath (parent (Path output_path)) ".write_test".

(** The answer of the path validation and the file system it leaves, as
    functions of the file system it starts from. *)
Definition verdict_on (m : gmap string Posix.node) (output_path : string)
    : result unit * gmap string Posix.node :=
  let path := PosixPath.to_str output_path in
  let par := PosixPath.parent_str path in
  let mk := marker (fl := PosixPath.flavour) output_path in
  if Posix.is_dir m path then
    (Raise (QuantisValidationError
       ("Output path is a directory: " +:+ output_path
        +:+ ". Please specify a filename.")), m)
  else if negb (Posix.exists_ m par) then
    (Raise (QuantisValidationError ("Directory does not exist: " +:+ par)), m)
  else if negb (Posix.is_dir m par) then
    (Raise (QuantisValidationError
       ("Parent path is not a directory: " +:+ par)), m)
  else
    let denied := QuantisValidationError
                    ("No write permission for directory: " +:+ par) in
    match Posix.touch m mk with
    | (Some _, m1) => (Raise denied, m1)
    | (None, m1) =>
        match Posix.unlink m1 mk with
        | (Some _, m2) => (Raise denied, m2)
        | (None, m2) => (Ok tt, m2)
        end
    end.

(** The placeholder files of test mode, read off the argument list: every
    argument that follows a kind flag, unless it is literally a sentinel. *)
Fixpoint placeholder_targets (args : list string) : list string :=
  match args with
  | a :: rest =>
      match rest with
      | b :: _ =>
          (if bool_decide (a ∈ ["-b"; "-i"; "-f"]%string)
              && negb (bool_decide (b ∈ ["/dev/null"; "nul"]%string))
           then [b] else [])
          ++ placeholder_targets rest
      | [] => []
      end
  | [] => []
  end.

(** The placeholder files of a generation call: the output path, and
    ["-n"] when the output path spells a kind flag. *)
Definition generation_targets (output_path : string) : list string :=
  (if bool_decide (output_path ∈ ["/dev/null"; "nul"]%string)
   then [] else [output_path])
  ++ (if bool_decide (output_path ∈ ["-b"; "-i"; "-f"]%string)
      then ["-n"%string] else []).

(** The calls of the three kinds that the environment refused with [e]. *)
Definition refused_open (log : list entry) (e : exn) : Prop :=
  exists p, In (Did (FileOpenW p) (Some e)) log.
Definition refused_write (log : list entry) (e : exn) : Prop :=
  exists p data, In (Did (FileWrite p data) (Some e)) log.

(** What [subprocess.run] answered, for an entry that is a spawn. *)
Definition spawn_answer (en : entry) : option (result completed) :=
  match en with
  | Did e x =>
      match e in event T return T -> option (result completed) with
      | SubprocessRun _ => fun r => Some r
      | _ => fun _ => None
      end x
  end.

(** The files a program opened for writing. *)
Definition opened_by (en : entry) : list string :=
  match en with
  | Did e _ =>
      match e with
      | FileOpenW p => [p]
      | _ => []
      end
  end.
Definition opened (log : list entry) : list string := flat_map opened_by log.

(** ** cli.py: the click commands

    A command is a program that ends with the lines it echoed and with its
    outcome: it returned, or an exception left it.  [click.Abort] is a
    [RuntimeError], hence an [Exception]. *)

Module Cli.

Inductive stream : Type := stdout | stderr.

Inductive raised : Type :=
  | Exc (e : exn)
  | Abort.

Inductive outcome (A : Type) : Type :=
  | Returned (a : A)
  | Raised (e : raised).
Arguments Returned {A} a.
Arguments Raised {A} e.

Definition cmd (A : Type) : Type := Prog (list (stream * string) * outcome A).

(** What the commands use of Python's built-ins and cannot be computed
    here: [str.lower()], which is plain ASCII lowering on ASCII text, and
    the text [str(e)] of the built-in exceptions. *)
Definition is_ascii_text (s : string) : bool :=
  forallb (fun c => Nat.ltb (nat_of_ascii c) 128) (list_ascii_of_string s).

Definition ascii_lower_char (c : ascii) : ascii :=
  let n := nat_of_ascii c in
  if Nat.leb 65 n && Nat.leb n 90 then ascii_of_nat (n + 32) else c.

Fixpoint ascii_lower (s : string) : string :=
  match s with
  | EmptyString => EmptyString
  | String c r => String (ascii_lower_char c) (ascii_lower r)
  end.

Class Builtins : Type := {
  lower : string -> string;
  describe : exn -> string;
  lower_ascii : forall s, is_ascii_text s = true -> lower s = ascii_lower s
}.

(** [s.startswith(a)] and [a in s]. *)
Fixpoint starts_with (a s : string) : bool :=
  match a, s with
  | EmptyString, _ => true
  | String x a', String y s' => Ascii.eqb x y && starts_with a' s'
  | String _ _, EmptyString => false
  end.

Fixpoint is_in (a s : string) : bool :=
  starts_with a s
  || match s with
     | EmptyString => false
     | String _ s' => is_in a s'
     end.

(** [str(e)]. *)
Definition str_exn `{Builtins} (e : exn) : string :=
  match e with
  | QuantisValidationError msg | QuantisNotFoundError msg
  | QuantisExecutionError msg => msg
  | _ => describe e
  end.

Definition str_raised `{Builtins} (e : raised) : string :=
  match e with
  | Exc e => str_exn e
  | Abort => EmptyString
  end.

(** The classes named in the [except] clauses. *)
Definition is_QuantisValidationError (e : raised) : bool :=
  match e with Exc (QuantisValidationError _) => true | _ => false end.

Definition is_QuantisError (e : raised) : bool :=
  match e with Exc e => Py.is_QuantisError e | Abort => false end.

Definition is_Exception (e : raised) : bool := true.

(** Sequencing, echoing, raising. *)
Definition done {A} (a : A) : cmd A := Ret ([], Returned a).
Definition throw {A} (e : raised) : cmd A := Ret ([], Raised e).

(** [click.echo(message, err=err)]. *)
Definition echo (message : string) (err : bool) : cmd unit :=
  Ret ([(if err then stderr else stdout, message)], Returned tt).

Fixpoint after_output {A} (out : list (stream * string)) (p : cmd A) : cmd A :=
  match p with
  | Ret (out', r) => Ret (out ++ out', r)
  | Vis e k => Vis e (fun x => after_output out (k x))
  end.

Fixpoint then_ {A B} (p : cmd A) (f : A -> cmd B) : cmd B :=
  match p with
  | Ret (out, Returned a) => after_output out (f a)
  | Ret (out, Raised e) => Ret (out, Raised e)
  | Vis e k => Vis e (fun x => then_ (k x) f)
  end.

(** A call into the generator. *)
Fixpoint from_py {A} (p : py A) : cmd A :=
  match p with
  | Ret (Ok a) => Ret ([], Returned a)
  | Ret (Raise e) => Ret ([], Raised (Exc e))
  | Vis e k => Vis e (fun x => from_py (k x))
  end.

(** [try: p  except C1 as e: b1  except C2 as e: b2 ...]: the first clause
    whose class matches handles the exception; what its body raises leaves
    the statement. *)
Fixpoint first_clause {A} (clauses : list ((raised -> bool) * (raised -> cmd A)))
    (e : raised) : option (cmd A) :=
  match clauses with
  | [] => None
  | (matches, body) :: rest =>
      if matches e then Some (body e) else first_clause rest e
  end.

Fixpoint try_ {A} (p : cmd A)
    (clauses : list ((raised -> bool) * (raised -> cmd A))) : cmd A :=
  match p with
  | Ret (out, Returned a) => Ret (out, Returned a)
  | Ret (out, Raised e) =>
      match first_clause clauses e with
      | Some body => after_output out body
      | None => Ret (out, Raised e)
      end
  | Vis e k => Vis e (fun x => try_ (k x) clauses)
  end.

Declare Scope cmd_scope.
Delimit Scope cmd_scope with cmd.
Notation "x <- c1 ;; c2" := (then_ c1 (fun x => c2))
  (at level 100, c1 at next level, right associativity) : cmd_scope.
Notation "c1 ;; c2" := (then_ c1 (fun _ => c2))
  (at level 100, right associativity) : cmd_scope.

(** [QuantisGenerator(test_mode=test)]. *)
Definition QuantisGenerator_ (test : bool) : QuantisGenerator.t :=
  {| usb_device_index := 0; easyquantis_path := "easyquantis";
     test_mode := test |}.

Section Commands.
Context {fl : PathFlavour} `{Builtins}.
Local Open Scope cmd_scope.

(** [check(test)]. *)
Definition check (test : bool) : cmd unit :=
  try_
    (let generator := QuantisGenerator_ test in
     ready <- from_py (is_ready generator) ;;
     if ready then
       let mode := (if test then " (test mode)" else "")%string in
       echo ("✓ easyquantis is ready and device is accessible" +:+ mode)
         false
     else
       echo "✗ easyquantis is not accessible or device not ready" false ;;
       (if negb test then
          echo "Hint: Make sure 'easyquantis' is installed, in your PATH, and a Quantis device is connected."
            true
        else done tt) ;;
       throw Abort)
    [(is_Exception, fun e =>
        echo ("Error during check: " +:+ str_raised e) true ;;
        throw Abort)].

(** [bin(count, output_path, test)]. *)
Definition bin (count : Z) (output_path : string) (test : bool) : cmd unit :=
  try_
    (let generator := QuantisGenerator_ test in
     from_py (generate_binary generator count output_path) ;;
     let mode := (if test then " (test mode)" else "")%string in
     echo ("✓ Generated " +:+ str_Z count +:+ " bytes to "
           +:+ output_path +:+ mode) false)
    [(is_QuantisValidationError, fun e =>
        echo ("Validation error: " +:+ str_raised e) true ;;
        echo "Hint: Make sure the output path is a valid file (not a directory) and the parent directory exists."
          true ;;
        throw Abort);
     (is_QuantisError, fun e =>
        echo ("Error: " +:+ str_raised e) true ;;
        (if is_in "not found" (lower (str_raised e)) then
           echo "Hint: Make sure 'easyquantis' is installed and available in your PATH."
             true
         else done tt) ;;
        throw Abort);
     (is_Exception, fun e =>
        echo ("Unexpected error: " +:+ str_raised e) true ;;
        throw Abort)].

Section Bounded.
Context {V : Type} `{Number V}.

(** [integer(count, output_path, min, max, separator, test)]. *)
Definition integer (count : Z) (output_path : string)
    (min max : option V) (separator : option string) (test : bool)
    : cmd unit :=
  try_
    (let generator := QuantisGenerator_ test in
     from_py (generate_integers generator count output_path
                min max separator) ;;
     let mode := (if test then " (test mode)" else "")%string in
     let range_info :=
       match min, max with
       | Some lo, Some hi => " (range: " +:+ str lo +:+ "-" +:+ str hi +:+ ")"
       | _, _ => ""%string
       end in
     echo ("✓ Generated " +:+ str_Z count +:+ " integers to "
           +:+ output_path +:+ range_info +:+ mode) false)
    [(is_QuantisValidationError, fun e =>
        echo ("Validation error: " +:+ str_raised e) true ;;
        (if is_in "minimum" (lower (str_raised e))
            && is_in "maximum" (lower (str_raised e)) then
           echo "Hint: Make sure --min is less than --max." true
         else
           echo "Hint: Make sure the output path is a valid file (not a directory) and the parent directory exists."
             true) ;;
        throw Abort);
     (is_QuantisError, fun e =>
        echo ("Error: " +:+ str_raised e) true ;;
        (if is_in "not found" (lower (str_raised e)) then
           echo "Hint: Make sure 'easyquantis' is installed and available in your PATH."
             true
         else done tt) ;;
        throw Abort);
     (is_Exception, fun e =>
        echo ("Unexpected error: " +:+ str_raised e) true ;;
        throw Abort)].

(** [floats(count, output_path, min, max, separator, test)]. *)
Definition floats (count : Z) (output_path : string)
    (min max : option V) (separator : option string) (test : bool)
    : cmd unit :=
  try_
    (let generator := QuantisGenerator_ test in
     from_py (generate_floats generator count output_path
                min max separator) ;;
     let mode := (if test then " (test mode)" else "")%string in
     let range_info :=
       match min, max with
       | Some lo, Some hi => " (range: " +:+ str lo +:+ "-" +:+ str hi +:+ ")"
       | _, _ => ""%string
       end in
     echo ("✓ Generated " +:+ str_Z count +:+ " floats to "
           +:+ output_path +:+ range_info +:+ mode) false)
    [(is_QuantisValidationError, fun e =>
        echo ("Validation error: " +:+ str_raised e) true ;;
        (if is_in "minimum" (lower (str_raised e))
            && is_in "maximum" (lower (str_raised e)) then
           echo "Hint: Make sure --min is less than --max." true
         else
           echo "Hint: Make sure the output path is a valid file (not a directory) and the parent directory exists."
             true) ;;
        throw Abort);
     (is_QuantisError, fun e =>
        echo ("Error: " +:+ str_raised e) true ;;
        (if is_in "not found" (lower (str_raised e)) then
           echo "Hint: Make sure 'easyquantis' is installed and available in your PATH."
             true
         else done tt) ;;
        throw Abort);
     (is_Exception, fun e =>
        echo ("Unexpected error: " +:+ str_raised e) true ;;
        throw Abort)].

End Bounded.
End Commands.

(** Built-ins for text that is ASCII throughout. *)
#[export] Instance ascii_builtins : Builtins :=
  {| lower := ascii_lower;
     describe := fun _ => "OSError"%string;
     lower_ascii := fun s _ => eq_refl |}.

(** The category a failure is reported under. *)
Definition failure_prefix (e : exn) : string :=
  match e with
  | QuantisValidationError _ => "Validation error: "
  | QuantisNotFoundError _ | QuantisExecutionError _ => "Error: "
  | _ => "Unexpected error: "
  end.

(** All lines went to the error stream. *)
Definition all_stderr (out : list (stream * string)) : Prop :=
  Forall (fun l => l.1 = stderr) out.

(** How a command [o] reports on the generator call [g] it wraps: it makes
    the same environment calls; when the call returns, the only output is
    the success line on the standard output; when the call raises [e], the
    first line is the category and [str(e)] on the error stream, followed
    by at most one hint, and [click.Abort] leaves the command. *)
Definition reports {W} `{Builtins} (g : list entry * W * result unit)
    (o : list entry * W * (list (stream * string) * outcome unit))
    (success_line : string) : Prop :=
  trace o = trace g /\ final o = final g
  /\ (answer g = Ok tt ->
      answer o = ([(stdout, success_line)], Returned tt))
  /\ (forall e, answer g = Raise e ->
      exists hints,
        answer o = ((stderr, failure_prefix e +:+ str_exn e) :: hints,
                    Raised Abort)
        /\ all_stderr hints /\ (length hints <= 1)%nat).

End Cli.

(** ** Further scenarios *)

Module Scenarios.
Import Posix Examples.


(** The example machine with no executable installed. *)
Definition no_tool : world :=
  {| fs := fs machine; entropy := entropy machine; programs := ∅ |}.

(** The example machine where [easyquantis] runs and finds no device. *)
Definition no_device : world :=
  {| fs := fs machine; entropy := entropy machine;
     programs := {["easyquantis"%string := Completed 1 "Device not found"]} |}.

End Scenarios.

(** ** Facts about Python strings *)


Lemma append_assoc (a b c : string) : (a +:+ b) +:+ c = a +:+ (b +:+ c).
Proof.
  induction a as [|x a IH]; [reflexivity|].
  change (String x ((a +:+ b) +:+ c) = String x (a +:+ (b +:+ c))).
  by rewrite IH.
Qed.



(** ** General facts about running programs *)

Section RunFacts.
Context {W : Type} (h : handler W).

Lemma run_bind {A B} (p : py A) (f : A -> py B) (w : W) :
  run h (bind p f) w =
  match run h p w with
  | (l, w1, Ok a) => let '(l2, w2, r) := run h (f a) w1 in (l ++ l2, w2, r)
  | (l, w1, Raise e) => (l, w1, Raise e)
  end.
Proof.
  revert w. induction p as [[a|e]|X ev k IH]; intros w; simpl.
  - destruct (run h (f a) w) as [[l2 w2] r]. reflexivity.
  - reflexivity.
  - destruct (respond h ev w) as [x w1]. rewrite IH.
    destruct (run h (k x) w1) as [[l w2] [a|e]]; [|reflexivity].
    destruct (run h (f a) w2) as [[l2 w3] r]. reflexivity.
Qed.

Lemma run_try_except {A} (p : py A) matches body (w : W) :
  run h (try_except p matches body) w =
  match run h p w with
  | (l, w1, Ok a) => (l, w1, Ok a)
  | (l, w1, Raise e) =>
      if matches e then
        let '(l2, w2, r) := run h (body e) w1 in (l ++ l2, w2, r)
      else (l, w1, Raise e)
  end.
Proof.
  revert w. induction p as [[a|e]|X ev k IH]; intros w; simpl.
  - reflexivity.
  - destruct (matches e); [|reflexivity].
    destruct (run h (body e) w) as [[l2 w2] r]. reflexivity.
  - destruct (respond h ev w) as [x w1]. rewrite IH.
    destruct (run h (k x) w1) as [[l w2] [a|e]]; [reflexivity|].
    destruct (matches e); [|reflexivity].
    destruct (run h (body e) w2) as [[l2 w3] r]. reflexivity.
Qed.

Lemma run_call_bind {X B} (e : event X) (f : X -> py B) (w : W) :
  run h (bind (call e) f) w =
  let '(x, w1) := respond h e w in
  let '(l, w2, r) := run h (f x) w1 in (Did e x :: l, w2, r).
Proof. reflexivity. Qed.

End RunFacts.

(** Answer one environment call in the goal and continue by cases. *)
Ltac answer_call :=
  match goal with
  | |- context [respond ?h ?e ?w] =>
      let x := fresh "x" in let w' := fresh "w" in
      let E := fresh "E" in
      destruct (respond h e w) as [x w'] eqn:E; simpl;
      try match type of x with
          | bool => destruct x; simpl
          | option _ => destruct x; simpl
          | result _ => destruct x; simpl
          end
  end.

Section ValidationFacts.
Context {fl : PathFlavour} {W : Type} (h : handler W).

(** The common validation makes no process call, touches nothing but the
    probe marker, and ends normally or with a validation error. *)
Lemma validate_outcome (self : QuantisGenerator.t) count output_path (w : W) :
  let o := run h (_validate_inputs self count output_path) w in
  spawned (trace o) = []
  /\ (written (trace o) = []
      \/ written (trace o) = [marker output_path]
      \/ written (trace o) = [marker output_path; marker output_path])
  /\ (answer o = Ok tt
      \/ exists msg, answer o = Raise (QuantisValidationError msg)).
Proof.
  unfold _validate_inputs, marker.
  destruct (count <=? 0); [simpl; eauto 6|].
  destruct (bool_decide _); [simpl; eauto 6|].
  simpl. repeat answer_call; eauto 8.
Qed.

(** A sentinel path with a positive count passes without any call. *)
Lemma validate_sentinel (self : QuantisGenerator.t) count output_path :
  0 < count -> is_sentinel output_path = true ->
  _validate_inputs self count output_path = ret tt.
Proof.
  intros Hc Hs. unfold _validate_inputs, is_sentinel in *.
  destruct (Z.leb_spec count 0); [lia|]. rewrite Hs. reflexivity.
Qed.

(** In normal mode the execution primitive makes exactly one call, to
    [subprocess.run], and classifies its outcome. *)
Lemma run_execute_normal (self : QuantisGenerator.t) args (w : W) :
  test_mode self = false ->
  let cmd := [easyquantis_path self; "-u"%string;
              str_Z (usb_device_index self)] ++ args in
  let '(r, w1) := respond h (SubprocessRun cmd) w in
  run h (_execute_command self args) w =
  ([Did (SubprocessRun cmd) r], w1,
   match r with
   | Ok c =>
       if returncode c =? 0 then Ok tt
       else Raise (QuantisExecutionError
              ("Command failed: " +:+ Py.join " " cmd +:+ "
Error: " +:+ stderr c))
   | Raise e =>
       if is_FileNotFoundError e then
         Raise (QuantisNotFoundError
                  ("easyquantis executable not found: "
                   +:+ easyquantis_path self))
       else Raise e
   end).
Proof.
  intros Hm cmd. unfold _execute_command. rewrite Hm. fold cmd.
  simpl. destruct (respond h (SubprocessRun cmd) w) as [[c|e] w1]; simpl.
  - destruct (returncode c =? 0); reflexivity.
  - destruct (is_FileNotFoundError e); reflexivity.
Qed.

End ValidationFacts.

(** ** The claims *)

Section Claims.
Context {fl : PathFlavour} {V : Type} `{Number V}.

(** In normal mode: a generation call that passed validation made exactly
    one process call, with the given arguments after the device selector. *)
Lemma spawned_after_validation {W} (h : handler W) (self : QuantisGenerator.t)
    count output_path (check : bool) msg args (w : W) :
  test_mode self = false ->
  let o := run h (bind (_validate_inputs self count output_path) (fun _ =>
             if check then raise (QuantisValidationError msg)
             else _execute_command self args)) w in
  spawned (trace o) =
    [[easyquantis_path self; "-u"%string; str_Z (usb_device_index self)]
     ++ args]
  \/ (spawned (trace o) = []
      /\ exists m, answer o = Raise (QuantisValidationError m)).
Proof.
  intros Hm o. subst o. rewrite run_bind.
  pose proof (validate_outcome h self count output_path w) as (Hs & _ & Ha).
  destruct (run h (_validate_inputs self count output_path) w)
    as [[l w1] [[]|e]]; simpl in *.
  - destruct check; simpl.
    + right. rewrite app_nil_r. eauto.
    + pose proof (run_execute_normal h self args w1 Hm) as Hx.
      simpl in Hx. destruct (respond h _ w1) as [r w2]. rewrite Hx.
      left. unfold trace, spawned in *. simpl in *.
      rewrite flat_map_app, Hs. reflexivity.
  - right. destruct Ha as [Ha|[m Ha]]; [discriminate|]. eauto.
Qed.

(** Both bounded operations are the shared contract at their kind flag. *)
Lemma integers_unfold (self : QuantisGenerator.t) count output_path
    (min_val max_val : option V) separator :
  generate_integers self count output_path min_val max_val separator
  = bounded_contract "-i" self count output_path min_val max_val separator.
Proof. destruct min_val, max_val, separator; reflexivity. Qed.

Lemma floats_unfold (self : QuantisGenerator.t) count output_path
    (min_val max_val : option V) separator :
  generate_floats self count output_path min_val max_val separator
  = bounded_contract "-f" self count output_path min_val max_val separator.
Proof. destruct min_val, max_val, separator; reflexivity. Qed.



(** C2. For every [count <= 0] each of the three generation operations is
    the bare raising of the validation error: it makes no environment call
    at all, so no process is spawned and no file (placeholder or probe
    marker) is created or touched, in any environment. *)
Theorem C2_nonpositive_count_rejected_first {W} (h : handler W) (w : W)
    (self : QuantisGenerator.t) (count : Z) (output_path : string)
    (min_val max_val : option V) (separator : option string) :
  count <= 0 ->
  let rejected : py unit :=
    raise (QuantisValidationError "Count must be positive") in
  generate_binary self count output_path = rejected
  /\ generate_integers self count output_path min_val max_val separator
     = rejected
  /\ generate_floats self count output_path min_val max_val separator
     = rejected
  /\ run h rejected w
     = ([], w, Raise (QuantisValidationError "Count must be positive"))
  /\ spawned (trace (run h rejected w)) = []
  /\ written (trace (run h rejected w)) = [].
Proof.
  intros Hc rejected.
  unfold generate_binary, generate_integers, generate_floats,
    _validate_inputs.
  destruct (Z.leb_spec count 0); [|lia]. simpl. auto 7.
Qed.



(** Outside test mode [is_ready] asks for ["/dev/null"], runs the
    generation call and maps its outcome. *)
Lemma run_is_ready_normal {W} (h : handler W) (w : W)
    (self : QuantisGenerator.t) :
  test_mode self = false ->
  run h (is_ready self) w =
  let '(dev_null, w1) := respond h (OsPathExists "/dev/null") w in
  let null_path := (if dev_null then "/dev/null" else "nul")%string in
  let '(l, w2, r) := run h (generate_binary self 1 null_path) w1 in
  (Did (OsPathExists "/dev/null") dev_null :: l, w2,
   match r with
   | Ok _ => Ok true
   | Raise e => if is_NotFound_or_Execution e then Ok false else Raise e
   end).
Proof.
  intros Hm. unfold is_ready. rewrite Hm, run_try_except, run_call_bind.
  destruct (respond h (OsPathExists "/dev/null") w) as [b w1].
  rewrite run_bind.
  destruct (run h (generate_binary self 1 _) w1) as [[l w2] [[]|e]]; simpl.
  - by rewrite app_nil_r.
  - destruct (is_NotFound_or_Execution e); simpl; by rewrite ?app_nil_r.
Qed.

(** C6. In test mode [is_ready] is the constant [True], with no
    environment call.  Outside test mode it looks for ["/dev/null"] and
    makes exactly one invocation, generating 1 byte to the null path; it
    returns [True] when that call succeeds, [False] when the call raises
    [QuantisNotFoundError] or [QuantisExecutionError], and it lets any
    other exception through. *)
Theorem C6_is_ready {W} (h : handler W) (w : W) (self : QuantisGenerator.t) :
  Path "/dev/null" = "/dev/null"%string -> Path "nul" = "nul"%string ->
  (test_mode self = true -> is_ready self = ret true)
  /\ (test_mode self = false ->
      let dev_null := (respond h (OsPathExists "/dev/null") w).1 in
      let w1 := (respond h (OsPathExists "/dev/null") w).2 in
      let null_path := (if dev_null then "/dev/null" else "nul")%string in
      let inner := run h (generate_binary self 1 null_path) w1 in
      let o := run h (is_ready self) w in
      trace o = Did (OsPathExists "/dev/null") dev_null :: trace inner
      /\ spawned (trace o) =
           [[easyquantis_path self; "-u"; str_Z (usb_device_index self);
             "-b"; null_path; "-n"; "1"]%string]
      /\ written (trace o) = []
      /\ (answer inner = Ok tt -> answer o = Ok true)
      /\ (forall e, answer inner = Raise e ->
            is_NotFound_or_Execution e = true -> answer o = Ok false)
      /\ (forall e, answer inner = Raise e ->
            is_NotFound_or_Execution e = false -> answer o = Raise e)).
Proof.
  intros Hnull Hnul. split.
  - intros Hm. unfold is_ready. by rewrite Hm.
  - intros Hm dev_null w1 null_path inner o.
    assert (generate_binary self 1 null_path
            = _execute_command self ["-b"; null_path; "-n"; "1"]%string)
      as Hgb.
    { unfold generate_binary. rewrite validate_sentinel; [reflexivity|lia|].
      unfold is_sentinel, null_path.
      destruct dev_null; [rewrite Hnull|rewrite Hnul]; reflexivity. }
    subst o inner. rewrite (run_is_ready_normal h w self Hm).
    subst dev_null w1.
    destruct (respond h (OsPathExists "/dev/null") w) as [b w1].
    simpl fst in *. simpl snd in *. set (p := null_path) in *.
    subst null_path. cbv zeta. fold p. rewrite !Hgb.
    pose proof (run_execute_normal h self
                  ["-b"; p; "-n"; "1"]%string w1 Hm) as Hx.
    cbv zeta in Hx.
    destruct (respond h (SubprocessRun _) w1) as [r w2]. rewrite Hx.
    clear Hx Hgb. unfold trace, answer. simpl.
    split; [reflexivity|]. split; [reflexivity|]. split; [reflexivity|].
    destruct r as [c|e].
    + destruct (returncode c =? 0); repeat split; try done;
        by intros e [= <-].
    + destruct (is_FileNotFoundError e); repeat split; try done;
        intros e' [= <-]; try done; by intros ->.
Qed.

(** C8. [generate_floats] has the contract of [generate_integers]: for the
    same inputs both are the shared contract (the same validation of count
    and path, the same ordering check, the same execution primitive), and
    their invocation vectors differ in the kind flag only, ["-f"] against
    ["-i"] at index 3. *)
Theorem C8_floats_share_integer_contract (self : QuantisGenerator.t)
    (count : Z) (output_path : string) (min_val max_val : option V)
    (separator : option string) :
  generate_integers self count output_path min_val max_val separator
  = bounded_contract "-i" self count output_path min_val max_val separator
  /\ generate_floats self count output_path min_val max_val separator
     = bounded_contract "-f" self count output_path min_val max_val separator
  /\ invocation_vector self "-f" count output_path min_val max_val separator
     = <[3%nat := "-f"%string]>
         (invocation_vector self "-i" count output_path
            min_val max_val separator)
  /\ invocation_vector self "-i" count output_path min_val max_val separator
       !! 3%nat = Some "-i"%string.
Proof.
  split; [apply integers_unfold|]. split; [apply floats_unfold|].
  split; reflexivity.
Qed.

End Claims.

(** ** Facts about POSIX paths *)

Module PosixPathFacts.
Import PosixPath.

Lemma split_sep_cons (c : ascii) (r : string) :
  split_sep (String c r) =
  if Ascii.eqb c "/" then EmptyString :: split_sep r
  else match split_sep r with
       | [] => [String c EmptyString]
       | h :: t => String c h :: t
       end.
Proof. reflexivity. Qed.

Lemma split_sep_nonempty (s : string) : split_sep s <> [].
Proof.
  destruct s as [|c r]; [discriminate|]. rewrite split_sep_cons.
  destruct (Ascii.eqb c "/"); [discriminate|].
  destruct (split_sep r); discriminate.
Qed.

Lemma plain_cons_inv (a : ascii) (c : string) :
  plain (String a c) -> Ascii.eqb a "/" = false /\ plain c.
Proof.
  unfold plain. rewrite split_sep_cons.
  destruct (Ascii.eqb a "/"); [intros [=]|].
  pose proof (split_sep_nonempty c) as Hne.
  destruct (split_sep c) as [|h t]; [done|]. intros [= -> ->]. auto.
Qed.

Lemma plain_cons (a : ascii) (c : string) :
  Ascii.eqb a "/" = false -> plain c -> plain (String a c).
Proof.
  unfold plain. intros Ha Hc. by rewrite split_sep_cons, Ha, Hc.
Qed.

Lemma split_sep_plain (s : string) : Forall plain (split_sep s).
Proof.
  induction s as [|c r IH]; [by repeat constructor|].
  rewrite split_sep_cons. destruct (Ascii.eqb c "/") eqn:Hc.
  - constructor; [reflexivity|exact IH].
  - pose proof (split_sep_nonempty r) as Hne.
    destruct (split_sep r) as [|h t]; [done|].
    inversion IH; subst. constructor; [by apply plain_cons|done].
Qed.

Lemma split_sep_app (c rest : string) :
  plain c -> split_sep (c +:+ String "/" rest) = c :: split_sep rest.
Proof.
  induction c as [|a c IH]; intros Hp; [reflexivity|].
  apply plain_cons_inv in Hp as [Ha Hc].
  change (String a c +:+ String "/" rest)
    with (String a (c +:+ String "/" rest)).
  by rewrite split_sep_cons, Ha, (IH Hc).
Qed.

Lemma join_cons2 (x y : string) (r : list string) :
  join "/" (x :: y :: r) = x +:+ String "/" (join "/" (y :: r)).
Proof. reflexivity. Qed.

Lemma split_sep_join (tl : list string) :
  tl <> [] -> Forall plain tl -> split_sep (join "/" tl) = tl.
Proof.
  induction tl as [|x [|y r] IH]; intros Hne Hall; [done| |].
  - by inversion Hall.
  - inversion Hall; subst. rewrite join_cons2, split_sep_app by done.
    by rewrite IH.
Qed.

Lemma filter_components (tl : list string) :
  Forall component tl ->
  filter (fun x => x <> EmptyString /\ x <> "."%string) tl = tl.
Proof.
  induction 1 as [|c tl [_ Hc] _ IH]; [reflexivity|].
  rewrite filter_cons_True by done. by rewrite IH.
Qed.

Lemma tail_of_join (tl : list string) :
  Forall component tl -> tail_of (join "/" tl) = tl.
Proof.
  intros Hall. destruct tl as [|c tl]; [reflexivity|].
  unfold tail_of. rewrite split_sep_join.
  - by apply filter_components.
  - done.
  - eapply Forall_impl; [exact Hall|]. by intros ? [? _].
Qed.

Lemma tail_of_components (rel : string) : Forall component (tail_of rel).
Proof.
  unfold tail_of. apply Forall_forall. intros c Hc.
  apply list_elem_of_filter in Hc as [[H1 H2] Hin].
  pose proof (split_sep_plain rel) as Hall.
  rewrite Forall_forall in Hall. split; auto.
Qed.

Lemma splitroot_root (p : string) : root (splitroot p).1.
Proof.
  unfold splitroot, root.
  destruct (negb _); [auto|]. destruct (_ || _); simpl; auto.
Qed.

Lemma parse_wf (p : string) :
  root (parse p).1 /\ Forall component (parse p).2.
Proof.
  unfold parse. pose proof (splitroot_root p).
  destruct (splitroot p) as [r rel]. split; [done|].
  apply tail_of_components.
Qed.

Lemma component_no_lead (c : string) :
  component c -> starts_with_sep c = false.
Proof.
  intros (Hp & Hne & _). destruct c as [|a c]; [done|].
  by apply plain_cons_inv in Hp as [? _].
Qed.

Lemma join_no_lead (tl : list string) :
  Forall component tl -> starts_with_sep (join "/" tl) = false.
Proof.
  destruct 1 as [|c tl Hc Hall]; [reflexivity|].
  pose proof (component_no_lead c Hc) as Hl.
  destruct Hc as (_ & Hne & _).
  destruct tl as [|y r]; [exact Hl|]. rewrite join_cons2.
  destruct c as [|a c]; [done|]. exact Hl.
Qed.

Lemma splitroot_join (r : string) (tl : list string) :
  root r -> Forall component tl ->
  splitroot (r +:+ join "/" tl) = (r, join "/" tl).
Proof.
  intros Hr Hall. pose proof (join_no_lead tl Hall) as Hl.
  unfold splitroot.
  destruct Hr as [->|[->| ->]].
  - change ("" +:+ join "/" tl) with (join "/" tl). by rewrite Hl.
  - change ("/" +:+ join "/" tl) with (String "/" (join "/" tl)).
    simpl. by rewrite Hl.
  - change ("//" +:+ join "/" tl)
      with (String "/" (String "/" (join "/" tl))).
    simpl. by rewrite Hl.
Qed.

Lemma join_empty_inv (tl : list string) :
  Forall component tl -> join "/" tl = EmptyString -> tl = [].
Proof.
  destruct 1 as [|c tl (_ & Hne & _) _]; [done|].
  destruct tl as [|y r]; [done|]. rewrite join_cons2.
  destruct c; [done|discriminate].
Qed.

(** Parsing a formatted path gives back its parts. *)
Lemma parse_format (r : string) (tl : list string) :
  root r -> Forall component tl -> parse (format_parts r tl) = (r, tl).
Proof.
  intros Hr Hall. unfold format_parts.
  destruct (String.eqb_spec (r +:+ join "/" tl) "") as [He|_].
  - assert (r = EmptyString) as ->.
    { destruct Hr as [->|[->| ->]]; [done|discriminate..]. }
    apply (join_empty_inv tl Hall) in He as ->. reflexivity.
  - unfold parse. rewrite splitroot_join by done.
    by rewrite tail_of_join.
Qed.

Lemma to_str_format (r : string) (tl : list string) :
  root r -> Forall component tl ->
  to_str (format_parts r tl) = format_parts r tl.
Proof. intros. unfold to_str. by rewrite parse_format. Qed.

Lemma to_str_parts (p : string) :
  exists r tl, root r /\ Forall component tl /\ to_str p = format_parts r tl.
Proof.
  pose proof (parse_wf p) as [Hr Hall]. unfold to_str.
  destruct (parse p) as [r tl]. eauto.
Qed.

(** Normalisation is idempotent. *)
Lemma to_str_normal (p : string) : normal (to_str p).
Proof.
  destruct (to_str_parts p) as (r & tl & Hr & Hall & ->).
  by apply to_str_format.
Qed.

Lemma removelast_components (tl : list string) :
  Forall component tl -> Forall component (removelast tl).
Proof.
  induction 1 as [|c tl Hc Hall IH]; [constructor|].
  destruct tl; [constructor|]. simpl. constructor; done.
Qed.

Lemma parent_str_format (r : string) (tl : list string) :
  root r -> Forall component tl ->
  parent_str (format_parts r tl) = format_parts r (removelast tl).
Proof.
  intros Hr Hall. unfold parent_str. rewrite parse_format by done.
  by destruct tl.
Qed.

Lemma parent_str_parts (p : string) :
  exists r tl, root r /\ Forall component tl
               /\ parent_str p = format_parts r tl.
Proof.
  pose proof (parse_wf p) as [Hr Hall]. unfold parent_str.
  destruct (parse p) as [r tl]. simpl in *.
  exists r, (removelast tl). split; [done|].
  split; [by apply removelast_components|]. by destruct tl.
Qed.

Lemma parent_str_normal (p : string) : normal (parent_str p).
Proof.
  destruct (parent_str_parts p) as (r & tl & Hr & Hall & ->).
  by apply to_str_format.
Qed.

Lemma joinpath_str_normal (a b : string) : normal (joinpath_str a b).
Proof. apply to_str_normal. Qed.

Lemma ends_with_sep_app (a b : string) :
  b <> EmptyString -> ends_with_sep (a +:+ b) = ends_with_sep b.
Proof.
  intros Hb. induction a as [|c a IH]; [reflexivity|].
  change (String c a +:+ b) with (String c (a +:+ b)).
  simpl. rewrite IH. destruct (a +:+ b) eqn:E; [|reflexivity].
  destruct a as [|c' a]; [|discriminate].
  change (b = EmptyString) in E. done.
Qed.

Lemma plain_no_trail (c : string) : plain c -> ends_with_sep c = false.
Proof.
  induction c as [|a c IH]; [reflexivity|]. intros Hp.
  apply plain_cons_inv in Hp as [Ha Hc]. simpl.
  destruct c; [exact Ha|by apply IH].
Qed.

Lemma join_no_trail (tl : list string) :
  Forall component tl -> ends_with_sep (join "/" tl) = false.
Proof.
  induction 1 as [|x tl Hx Hall IH]; [reflexivity|].
  destruct tl as [|y r]; [apply plain_no_trail, Hx|].
  rewrite join_cons2, ends_with_sep_app by discriminate.
  destruct (join "/" (y :: r)) eqn:E; [|exact IH].
  by apply (join_empty_inv _ Hall) in E.
Qed.

Lemma join_snoc (tl : list string) (m : string) :
  tl <> [] -> join "/" (tl ++ [m]) = join "/" tl +:+ String "/" m.
Proof.
  induction tl as [|x [|y r] IH]; intros Hne; [done|reflexivity|].
  change ((x :: y :: r) ++ [m]) with (x :: y :: (r ++ [m])).
  rewrite !join_cons2, append_assoc.
  change (y :: r ++ [m]) with ((y :: r) ++ [m]). by rewrite IH.
Qed.

Lemma component_marker : component ".write_test".
Proof. by repeat split. Qed.

(** Joining the marker name to a directory. *)
Lemma joinpath_marker (r : string) (tl : list string) :
  root r -> Forall component tl ->
  joinpath_str (format_parts r tl) ".write_test"
  = format_parts r (tl ++ [".write_test"%string]).
Proof.
  intros Hr Hall. destruct tl as [|c tl].
  - destruct Hr as [->|[->| ->]]; reflexivity.
  - set (t := c :: tl) in *.
    assert (t <> []) as Htne by done. clearbody t.
    assert (join "/" t <> EmptyString) as Hne.
    { intros E. by apply (join_empty_inv _ Hall) in E. }
    assert (forall l, join "/" l <> EmptyString ->
                      format_parts r l = r +:+ join "/" l) as Hfmt.
    { intros l Hl. unfold format_parts.
      destruct (String.eqb_spec (r +:+ join "/" l) "") as [E|]; [|done].
      destruct r; [done|discriminate]. }
    rewrite (Hfmt t Hne).
    unfold joinpath_str, os_path_join.
    assert (String.eqb (r +:+ join "/" t) "" = false) as ->.
    { apply String.eqb_neq. destruct r; [done|discriminate]. }
    rewrite ends_with_sep_app, join_no_trail by done. simpl.
    rewrite append_assoc.
    change ("/" +:+ ".write_test") with (String "/" ".write_test").
    rewrite <- join_snoc by done.
    rewrite <- Hfmt.
    + apply to_str_format; [done|].
      apply Forall_app. split; [done|].
      constructor; [apply component_marker|constructor].
    + rewrite join_snoc by done. by destruct (join "/" t).
Qed.

(** The probe marker lies in the directory that was validated. *)
Lemma parent_of_marker (p : string) :
  parent_str (joinpath_str (parent_str p) ".write_test") = parent_str p.
Proof.
  destruct (parent_str_parts p) as (r & tl & Hr & Hall & ->).
  rewrite joinpath_marker, parent_str_format; try done.
  - by rewrite removelast_last.
  - apply Forall_app. split; [done|].
    constructor; [apply component_marker|constructor].
Qed.

End PosixPathFacts.

(** ** The generator in the POSIX-like world *)

Section PosixWorld.
Import Posix PosixPath PosixPathFacts.
Context {V : Type} `{Number V}.

Local Arguments exists_ : simpl never.
Local Arguments is_dir : simpl never.
Local Arguments touch : simpl never.
Local Arguments unlink : simpl never.
Local Arguments open_w : simpl never.
Local Arguments write : simpl never.
Local Arguments key : simpl never.
Local Arguments to_str : simpl never.
Local Arguments parent_str : simpl never.
Local Arguments joinpath_str : simpl never.

Lemma key_to_str (p : string) : key (to_str p) = to_str p.
Proof. apply to_str_normal. Qed.

Lemma key_parent (p : string) : key (parent_str p) = parent_str p.
Proof. apply parent_str_normal. Qed.

Lemma key_joinpath (a b : string) : key (joinpath_str a b) = joinpath_str a b.
Proof. apply joinpath_str_normal. Qed.

Lemma with_fs_same (w : world) : with_fs w (fs w) = w.
Proof. by destruct w. Qed.

Lemma is_dir_exists (m : gmap string node) (k : string) :
  is_dir m k = true -> exists_ m k = true.
Proof. unfold is_dir, exists_. by destruct (m !! k). Qed.

(** The run of the path validation, in closed form. *)
Lemma run_validate_posix (w : world) (self : QuantisGenerator.t)
    (count : Z) (output_path : string) :
  0 < count -> is_sentinel output_path = false ->
  let m := fs w in
  let path := to_str output_path in
  let par := parent_str path in
  let mk := marker output_path in
  run os (_validate_inputs self count output_path) w =
  if is_dir m path then
    (stat_log m path, w,
     Raise (QuantisValidationError
       ("Output path is a directory: " +:+ output_path
        +:+ ". Please specify a filename.")))
  else if negb (exists_ m par) then
    (stat_log m path ++ [Did (PathExists par) false], w,
     Raise (QuantisValidationError ("Directory does not exist: " +:+ par)))
  else if negb (is_dir m par) then
    (stat_log m path
       ++ [Did (PathExists par) true; Did (PathIsDir par) false], w,
     Raise (QuantisValidationError
       ("Parent path is not a directory: " +:+ par)))
  else
    let pre := stat_log m path
                 ++ [Did (PathExists par) true; Did (PathIsDir par) true] in
    let denied := QuantisValidationError
                    ("No write permission for directory: " +:+ par) in
    match touch m mk with
    | (Some err, m1) =>
        (pre ++ [Did (PathTouch mk) (Some err)], with_fs w m1, Raise denied)
    | (None, m1) =>
        match unlink m1 mk with
        | (Some err, m2) =>
            (pre ++ [Did (PathTouch mk) None; Did (PathUnlink mk) (Some err)],
             with_fs w m2, Raise denied)
        | (None, m2) =>
            (pre ++ [Did (PathTouch mk) None; Did (PathUnlink mk) None],
             with_fs w m2, Ok tt)
        end
    end.
Proof.
  intros Hc Hs m path par mk.
  unfold _validate_inputs, is_sentinel, marker in *.
  destruct (Z.leb_spec count 0); [lia|]. rewrite Hs.
  change (Path output_path) with path. change (parent path) with par.
  change (joinpath par ".write_test") with mk in *.
  assert (key path = path) as Hkp by apply key_to_str.
  assert (key par = par) as Hkpar by apply key_parent.
  assert (key mk = mk) as Hkmk by apply key_joinpath.
  unfold stat_log. subst m. simpl. rewrite Hkp.
  destruct (exists_ (fs w) path) eqn:Hex; simpl; rewrite ?Hkp.
  - destruct (is_dir (fs w) path) eqn:Hd; simpl; [reflexivity|].
    rewrite Hkpar.
    destruct (exists_ (fs w) par); simpl; [|reflexivity]. rewrite Hkpar.
    destruct (is_dir (fs w) par); simpl; [|reflexivity]. rewrite Hkmk.
    destruct (touch (fs w) mk) as [[err|] m1]; simpl; [reflexivity|].
    rewrite Hkmk.
    destruct (unlink m1 mk) as [[err|] m2]; reflexivity.
  - assert (is_dir (fs w) path = false) as ->.
    { destruct (is_dir (fs w) path) eqn:Hd; [|done].
      apply is_dir_exists in Hd. congruence. }
    rewrite Hkpar.
    destruct (exists_ (fs w) par); simpl; [|reflexivity]. rewrite Hkpar.
    destruct (is_dir (fs w) par); simpl; [|reflexivity]. rewrite Hkmk.
    destruct (touch (fs w) mk) as [[err|] m1]; simpl; [reflexivity|].
    rewrite Hkmk.
    destruct (unlink m1 mk) as [[err|] m2]; reflexivity.
Qed.

Lemma probe_ok_run (m : gmap string node) (k : string) :
  probe_ok m k ->
  exists m1, touch m k = (None, m1) /\ unlink m1 k = (None, delete k m).
Proof.
  intros [Hp Hk]. unfold touch, unlink, create_error.
  destruct Hk as [Hk|[c Hk]]; rewrite Hk, ?Hp.
  - assert (parent_str k <> k) as Hne by congruence.
    eexists. split; [reflexivity|].
    rewrite lookup_insert_eq, lookup_insert_ne, Hp by done.
    by rewrite delete_insert_eq.
  - eexists. split; [reflexivity|]. by rewrite Hk, Hp.
Qed.

Lemma probe_ok_inv (m m1 m2 : gmap string node) (k : string) :
  touch m k = (None, m1) -> unlink m1 k = (None, m2) ->
  probe_ok m k /\ m2 = delete k m.
Proof.
  unfold touch, unlink, create_error, probe_ok.
  destruct (m !! k) as [[c []|[]]|] eqn:Hk; try (by intros [=]).
  - intros [= <-]. rewrite Hk.
    destruct (m !! parent_str k) as [[|[]]|]; try (by intros [=]).
    intros [= <-]. eauto.
  - intros [= <-]. rewrite Hk. by intros [=].
  - intros [= <-]. rewrite Hk. by intros [=].
  - destruct (m !! parent_str k) as [[|[]]|] eqn:Hp; try (by intros [=]).
    + intros [= <-]. rewrite lookup_insert_eq.
      assert (parent_str k <> k) as Hne by congruence.
      rewrite lookup_insert_ne, Hp by done. by intros [=].
    + intros [= <-]. rewrite lookup_insert_eq.
      assert (parent_str k <> k) as Hne by congruence.
      rewrite lookup_insert_ne, Hp by done. intros [= <-].
      rewrite delete_insert_eq. auto.
Qed.

Lemma touch_denied_same (m m1 : gmap string node) (k : string) err :
  touch m k = (Some err, m1) -> m1 = m.
Proof.
  unfold touch, create_error.
  repeat case_match; intros [=]; by subst.
Qed.



(** C7 (amended). When the common validation of a non-sentinel path
    passes, its last two calls are the touch and then the unlink of the
    probe marker [parent/.write_test]; no other call of the validation
    changes the file system, the marker does not exist afterwards, and the
    execution step starts only after them.  A validation that fails is the
    whole call, and when the touch is refused the world is left as it
    was. *)
Theorem C7_probe_marker_lifetime (w : world) (self : QuantisGenerator.t)
    (count : Z) (output_path : string) :
  is_sentinel output_path = false ->
  let mk := marker output_path in
  let vo := run os (_validate_inputs self count output_path) w in
  let o := run os (generate_binary self count output_path) w in
  (answer vo = Ok tt ->
     (exists pre, trace vo = pre ++ [Did (PathTouch mk) None;
                                     Did (PathUnlink mk) None]
                  /\ written pre = [])
     /\ fs (final vo) = delete mk (fs w)
     /\ fs (final vo) !! key mk = None
     /\ trace o = trace vo
                  ++ trace (run os (_execute_command self
                       ["-b"; output_path; "-n"; str_Z count]%string)
                       (final vo)))
  /\ (answer vo <> Ok tt -> o = vo)
  /\ (forall err, (touch (fs w) mk).1 = Some err -> final vo = w).
Proof.
  intros Hs mk vo o.
  assert (o = match vo with
              | (l, w1, Ok _) =>
                  let '(l2, w2, r) :=
                    run os (_execute_command self
                      ["-b"; output_path; "-n"; str_Z count]%string) w1 in
                  (l ++ l2, w2, r)
              | (l, w1, Raise e) => (l, w1, Raise e)
              end) as Ho.
  { subst o vo. unfold generate_binary. by rewrite run_bind. }
  assert (key mk = mk) as Hk by apply key_joinpath.
  clearbody o. subst o vo.
  destruct (Z.leb_spec count 0) as [Hle|Hc].
  { unfold _validate_inputs.
    destruct (Z.leb_spec count 0); [by repeat split|lia]. }
  rewrite (run_validate_posix w self count output_path Hc Hs).
  fold mk. cbv zeta.
  set (m := fs w). set (path := to_str output_path).
  set (par := parent_str path).
  assert (written (stat_log m path) = []) as Hst.
  { unfold stat_log. by destruct (exists_ m path). }
  destruct (is_dir m path); [by repeat split|].
  destruct (exists_ m par); simpl; [|repeat split; try done;
                                     intros; apply with_fs_same || done].
  destruct (is_dir m par); simpl; [|by repeat split].
  destruct (touch m mk) as [[err|] m1] eqn:Ht.
  { apply touch_denied_same in Ht as ->. repeat split; try done.
    intros _ _. apply with_fs_same. }
  destruct (unlink m1 mk) as [[err|] m2] eqn:Hu; [by repeat split|].
  destruct (probe_ok_inv _ _ _ _ Ht Hu) as [_ ->].
  unfold trace, final, answer. simpl. repeat split; try done.
  - eexists. split; [reflexivity|].
    unfold written in *. rewrite flat_map_app, Hst. reflexivity.
  - rewrite Hk. apply lookup_delete_eq.
  - destruct (run os _ (with_fs w (delete mk m))) as [[l2 w2] r].
    reflexivity.
Qed.

(** *** Test mode *)

Lemma open_w_ok_run (m : gmap string node) (p : string) :
  open_ok m p -> open_w m p = (None, <[key p := File "" true]> m).
Proof.
  intros (Hne & Hsep & Hk). unfold open_w, create_error.
  apply String.eqb_neq in Hne. rewrite Hne, Hsep.
  destruct Hk as [[c ->]|[-> (mode & -> & Hmode)]]; [done|].
  by destruct mode.
Qed.

Lemma open_w_ok_inv (m m1 : gmap string node) (p : string) :
  open_w m p = (None, m1) ->
  open_ok m p /\ m1 = <[key p := File "" true]> m.
Proof.
  unfold open_w, create_error, open_ok.
  destruct (String.eqb_spec p ""); [by intros [=]|].
  destruct (ends_with_sep p); [by intros [=]|].
  destruct (m !! key p) as [[c []|md]|] eqn:Hk; try (by intros [=]).
  - intros [= <-]. eauto 7.
  - destruct (m !! parent_str (key p)) as [[|[]]|] eqn:Hp;
      try (by intros [=]); intros [= <-]; repeat split; eauto 8.
Qed.

Lemma write_after_open (m : gmap string node) (p data : string) :
  write (<[key p := File "" true]> m) p data
  = (None, <[key p := File data true]> m).
Proof. unfold write. by rewrite lookup_insert_eq, insert_insert_eq. Qed.

(** A placeholder write succeeds exactly when the file can be opened. *)
Lemma run_placeholder_ok (w : world) (p : string) :
  open_ok (fs w) p ->
  exists l, run os (placeholder p) w = (l, after_placeholder w p, Ok tt)
            /\ spawned l = [].
Proof.
  intros Hok. unfold placeholder, after_placeholder. simpl.
  rewrite (open_w_ok_run _ _ Hok). simpl.
  destruct (randint 1000 9999 (entropy w)) as [x rest]. simpl.
  rewrite write_after_open. simpl. eauto.
Qed.

Lemma run_placeholder_inv (w w1 : world) (p : string) l :
  run os (placeholder p) w = (l, w1, Ok tt) ->
  open_ok (fs w) p /\ w1 = after_placeholder w p.
Proof.
  unfold placeholder, after_placeholder. simpl.
  destruct (open_w (fs w) p) as [[err|] m1] eqn:Ho; simpl; [by intros [=]|].
  apply open_w_ok_inv in Ho as [Hok ->].
  destruct (randint 1000 9999 (entropy w)) as [x rest]. simpl.
  rewrite write_after_open. simpl. by intros [= <- <-].
Qed.

(** The execution primitive of [generate_binary] in test mode: a
    placeholder at the output path unless it is literally a sentinel, and
    one at ["-n"] when the output path spells a kind flag. *)
Lemma execute_test_binary (self : QuantisGenerator.t) (count : Z)
    (output_path : string) :
  test_mode self = true ->
  _execute_command self ["-b"; output_path; "-n"; str_Z count]%string =
  bind (if negb (bool_decide (output_path ∈ ["/dev/null"; "nul"]%string))
        then placeholder output_path else ret tt) (fun _ =>
  bind (if bool_decide (output_path ∈ ["-b"; "-i"; "-f"]%string)
        then placeholder "-n" else ret tt) (fun _ =>
  ret tt)).
Proof.
  intros Hm. unfold _execute_command. rewrite Hm. simpl.
  rewrite andb_true_r, andb_false_r. reflexivity.
Qed.

Local Arguments placeholder : simpl never.

(** A [generate_binary] call in test mode, phase by phase. *)
Lemma run_binary_test (w : world) (self : QuantisGenerator.t) (count : Z)
    (output_path : string) :
  test_mode self = true ->
  run os (generate_binary self count output_path) w =
  match run os (_validate_inputs self count output_path) w with
  | (l, wv, Raise e) => (l, wv, Raise e)
  | (l, wv, Ok _) =>
      match (if negb (bool_decide
                        (output_path ∈ ["/dev/null"; "nul"]%string))
             then run os (placeholder output_path) wv
             else ([], wv, Ok tt)) with
      | (la, wa, Raise e) => (l ++ la, wa, Raise e)
      | (la, wa, Ok _) =>
          match (if bool_decide (output_path ∈ ["-b"; "-i"; "-f"]%string)
                 then run os (placeholder "-n") wa
                 else ([], wa, Ok tt)) with
          | (lb, wb, r) => (l ++ la ++ lb, wb, r)
          end
      end
  end.
Proof.
  intros Hm. unfold generate_binary.
  rewrite run_bind, (execute_test_binary self count output_path Hm).
  destruct (run os (_validate_inputs self count output_path) w)
    as [[l wv] [[]|e]]; [|reflexivity].
  rewrite run_bind.
  destruct (negb _).
  - destruct (run os (placeholder output_path) wv) as [[la wa] [[]|e]];
      [|reflexivity].
    rewrite run_bind. destruct (bool_decide _).
    + destruct (run os (placeholder "-n") wa) as [[lb wb] [[]|e]];
        cbn; rewrite ?app_nil_r; reflexivity.
    + cbn; rewrite ?app_nil_r; reflexivity.
  - cbn. rewrite run_bind. destruct (bool_decide _).
    + destruct (run os (placeholder "-n") wv) as [[lb wb] [[]|e]];
        cbn; rewrite ?app_nil_r; reflexivity.
    + cbn; rewrite ?app_nil_r; reflexivity.
Qed.

Lemma fs_after_placeholder (w : world) (p : string) :
  fs (after_placeholder w p)
  = <[key p := File ("test_data_"
                     +:+ str_Z (randint 1000 9999 (entropy w)).1) true]>
      (fs w).
Proof.
  unfold after_placeholder. by destruct (randint 1000 9999 (entropy w)).
Qed.

(** When the path validation passes, and what it leaves behind. *)
Lemma validate_ok_inv (w wv : world) (self : QuantisGenerator.t) (count : Z)
    (output_path : string) l :
  run os (_validate_inputs self count output_path) w = (l, wv, Ok tt) ->
  let path := to_str output_path in
  let mk := marker output_path in
  spawned l = [] /\ 0 < count
  /\ ((is_sentinel output_path = true /\ wv = w)
      \/ (is_sentinel output_path = false
          /\ is_dir (fs w) path = false
          /\ is_dir (fs w) (parent_str path) = true
          /\ probe_ok (fs w) mk
          /\ wv = with_fs w (delete mk (fs w)))).
Proof.
  intros Hrun path mk.
  pose proof (validate_outcome os self count output_path w) as (Hsp & _).
  rewrite Hrun in Hsp. split; [exact Hsp|].
  assert (0 < count) as Hc.
  { unfold _validate_inputs in Hrun.
    destruct (Z.leb_spec count 0); [by inversion Hrun|done]. }
  split; [done|].
  destruct (is_sentinel output_path) eqn:Hs.
  - left. rewrite validate_sentinel in Hrun by done.
    by inversion Hrun.
  - right. rewrite (run_validate_posix w self count output_path Hc Hs) in Hrun.
    fold path mk in Hrun. cbv zeta in Hrun.
    destruct (is_dir (fs w) path); [by inversion Hrun|].
    destruct (exists_ (fs w) (parent_str path)); [|by inversion Hrun].
    destruct (is_dir (fs w) (parent_str path)); [|by inversion Hrun].
    simpl in Hrun.
    destruct (touch (fs w) mk) as [[err|] m1] eqn:Ht; [by inversion Hrun|].
    destruct (unlink m1 mk) as [[err|] m2] eqn:Hu; [by inversion Hrun|].
    destruct (probe_ok_inv _ _ _ _ Ht Hu) as [Hok ->].
    inversion Hrun; subst. auto.
Qed.

Lemma validate_ok_run (w : world) (self : QuantisGenerator.t) (count : Z)
    (output_path : string) :
  let path := to_str output_path in
  let mk := marker output_path in
  0 < count -> is_sentinel output_path = false ->
  is_dir (fs w) path = false -> is_dir (fs w) (parent_str path) = true ->
  probe_ok (fs w) mk ->
  exists l, run os (_validate_inputs self count output_path) w
            = (l, with_fs w (delete mk (fs w)), Ok tt)
            /\ spawned l = [].
Proof.
  intros path mk Hc Hs Hd Hpd Hok.
  pose proof (validate_outcome os self count output_path w) as (Hsp & _).
  rewrite (run_validate_posix w self count output_path Hc Hs) in *.
  fold path mk in Hsp |- *. cbv zeta in *. rewrite Hd, Hpd in *.
  rewrite (is_dir_exists _ _ Hpd) in *. simpl in *.
  destruct (probe_ok_run _ _ Hok) as (m1 & Ht & Hu).
  rewrite Ht, Hu in *. eauto.
Qed.

Lemma literal_sentinel (output_path : string) :
  output_path ∈ ["/dev/null"; "nul"]%string ->
  is_sentinel output_path = true
  /\ bool_decide (output_path ∈ ["-b"; "-i"; "-f"]%string) = false.
Proof.
  intros Hin. apply list_elem_of_In in Hin.
  destruct Hin as [<-|[<-|[]]]; by vm_compute.
Qed.

(** What a second placeholder write at the same path needs. *)
Lemma open_ok_again (m : gmap string node) (p : string) (c : string) :
  open_ok m p -> forall m', m' !! key p = Some (File c true) -> open_ok m' p.
Proof. intros (Hne & Hsep & _) m' Hk. repeat split; eauto. Qed.

Lemma binary_test_inv (w w1 : world) (self : QuantisGenerator.t)
    (count : Z) (output_path : string) (l1 : list entry) :
  test_mode self = true ->
  run os (generate_binary self count output_path) w = (l1, w1, Ok tt) ->
  exists lv wv,
    run os (_validate_inputs self count output_path) w = (lv, wv, Ok tt)
    /\ execute_binary_ok wv output_path
    /\ w1 = after_execute_binary wv output_path
    /\ spawned l1 = [].
Proof.
  intros Hm Hrun.
  rewrite (run_binary_test w self count output_path Hm) in Hrun.
  destruct (run os (_validate_inputs self count output_path) w)
    as [[lv wv] [[]|e]] eqn:Hv; [|by inversion Hrun].
  exists lv, wv. split; [done|].
  pose proof (validate_outcome os self count output_path w) as (Hsp & _).
  rewrite Hv in Hsp. unfold trace in Hsp. simpl in Hsp.
  unfold execute_binary_ok, after_execute_binary, after_first_placeholder.
  destruct (bool_decide (output_path ∈ ["/dev/null"; "nul"]%string)) eqn:HS;
    cbn [negb] in Hrun.
  - apply bool_decide_eq_true in HS.
    destruct (bool_decide (output_path ∈ ["-b"; "-i"; "-f"]%string)) eqn:HK.
    + destruct (run os (placeholder "-n") wv) as [[lb wb] [[]|e]] eqn:Hb;
        [|by inversion Hrun].
      apply run_placeholder_inv in Hb as Hb'. destruct Hb' as [Hok ->].
      destruct (run_placeholder_ok _ _ Hok) as (l & Hl & Hspl).
      rewrite Hb in Hl. inversion Hl; subst. inversion Hrun; subst.
      repeat split; auto. unfold spawned in *.
      rewrite flat_map_app, Hsp. done.
    + apply bool_decide_eq_false in HK. inversion Hrun; subst.
      repeat split; auto. unfold spawned in *.
      rewrite flat_map_app, Hsp. done.
  - apply bool_decide_eq_false in HS.
    destruct (run os (placeholder output_path) wv) as [[la wa] [[]|e]]
      eqn:Ha; [|by inversion Hrun].
    apply run_placeholder_inv in Ha as Ha'. destruct Ha' as [Hoka ->].
    destruct (run_placeholder_ok _ _ Hoka) as (l & Hl & Hspa).
    rewrite Ha in Hl. inversion Hl; subst l. clear Hl.
    destruct (bool_decide (output_path ∈ ["-b"; "-i"; "-f"]%string)) eqn:HK.
    + destruct (run os (placeholder "-n") _) as [[lb wb] [[]|e]] eqn:Hb;
        [|by inversion Hrun].
      apply run_placeholder_inv in Hb as Hb'. destruct Hb' as [Hok ->].
      destruct (run_placeholder_ok _ _ Hok) as (l & Hl & Hspl).
      rewrite Hb in Hl. inversion Hl; subst. inversion Hrun; subst.
      repeat split; auto. unfold spawned in *.
      rewrite !flat_map_app, Hsp, Hspa. done.
    + apply bool_decide_eq_false in HK. inversion Hrun; subst.
      repeat split; auto. unfold spawned in *.
      rewrite !flat_map_app, Hsp, Hspa. done.
Qed.

Lemma binary_test_run (w wv : world) (self : QuantisGenerator.t)
    (count : Z) (output_path : string) (lv : list entry) :
  test_mode self = true ->
  run os (_validate_inputs self count output_path) w = (lv, wv, Ok tt) ->
  spawned lv = [] ->
  execute_binary_ok wv output_path ->
  exists l, run os (generate_binary self count output_path) w
            = (l, after_execute_binary wv output_path, Ok tt)
            /\ spawned l = [].
Proof.
  intros Hm Hv Hsp [Ha Hb].
  rewrite (run_binary_test w self count output_path Hm), Hv.
  unfold after_execute_binary, after_first_placeholder in *.
  destruct (bool_decide (output_path ∈ ["/dev/null"; "nul"]%string)) eqn:HS;
    cbn [negb].
  - destruct (bool_decide (output_path ∈ ["-b"; "-i"; "-f"]%string)) eqn:HK.
    + apply bool_decide_eq_true in HK. destruct Hb as [Hb|Hb]; [done|].
      destruct (run_placeholder_ok _ _ Hb) as (l & -> & Hspl).
      eexists. split; [reflexivity|]. unfold spawned in *.
      rewrite flat_map_app, Hsp. done.
    + eexists. split; [reflexivity|]. unfold spawned in *.
      rewrite flat_map_app, Hsp. done.
  - apply bool_decide_eq_false in HS. destruct Ha as [Ha|Ha]; [done|].
    destruct (run_placeholder_ok _ _ Ha) as (la & -> & Hspa).
    destruct (bool_decide (output_path ∈ ["-b"; "-i"; "-f"]%string)) eqn:HK.
    + apply bool_decide_eq_true in HK. destruct Hb as [Hb|Hb]; [done|].
      destruct (run_placeholder_ok _ _ Hb) as (l & -> & Hspl).
      eexists. split; [reflexivity|]. unfold spawned in *.
      rewrite !flat_map_app, Hsp, Hspa. done.
    + eexists. split; [reflexivity|]. unfold spawned in *.
      rewrite !flat_map_app, Hsp, Hspa. done.
Qed.

(** An output path that spells a kind flag. *)
Lemma kind_flag_paths (output_path : string) :
  output_path ∈ ["-b"; "-i"; "-f"]%string ->
  key output_path <> "-n"%string
  /\ marker output_path <> "-n"%string
  /\ parent_str (to_str output_path) <> "-n"%string
  /\ is_sentinel output_path = false.
Proof.
  intros Hin. apply list_elem_of_In in Hin.
  destruct Hin as [<-|[<-|[<-|[]]]]; by vm_compute.
Qed.

Lemma sentinel_not_kind_flag (output_path : string) :
  is_sentinel output_path = true ->
  output_path ∉ ["-b"; "-i"; "-f"]%string.
Proof.
  intros Hs Hin. apply kind_flag_paths in Hin as (_ & _ & _ & Hn).
  congruence.
Qed.

(** The file system after the execution step of test mode. *)
Lemma after_execute_target (wv : world) (output_path : string) :
  output_path ∉ ["/dev/null"; "nul"]%string ->
  fs (after_execute_binary wv output_path) !! key output_path
  = Some (File ("test_data_"
                +:+ str_Z (randint 1000 9999 (entropy wv)).1) true).
Proof.
  intros HS. unfold after_execute_binary, after_first_placeholder.
  rewrite (bool_decide_eq_false_2 _ HS).
  destruct (bool_decide (output_path ∈ ["-b"; "-i"; "-f"]%string)) eqn:HK.
  - apply bool_decide_eq_true in HK.
    apply kind_flag_paths in HK as (Hn & _).
    rewrite !fs_after_placeholder.
    change (key "-n") with "-n"%string.
    rewrite lookup_insert_ne by done. apply lookup_insert_eq.
  - rewrite fs_after_placeholder. apply lookup_insert_eq.
Qed.

Lemma after_execute_flag_file (wv : world) (output_path : string) :
  output_path ∈ ["-b"; "-i"; "-f"]%string ->
  exists c, fs (after_execute_binary wv output_path) !! "-n"%string
            = Some (File c true).
Proof.
  intros HK. unfold after_execute_binary.
  rewrite (bool_decide_eq_true_2 _ HK).
  rewrite fs_after_placeholder. change (key "-n") with "-n"%string.
  rewrite lookup_insert_eq. eauto.
Qed.

Lemma after_execute_frame (wv : world) (output_path k : string) :
  k <> key output_path ->
  (output_path ∈ ["-b"; "-i"; "-f"]%string -> k <> "-n"%string) ->
  fs (after_execute_binary wv output_path) !! k = fs wv !! k.
Proof.
  intros Hk Hn. unfold after_execute_binary, after_first_placeholder.
  assert (forall w', fs (after_placeholder w' output_path) !! k = fs w' !! k)
    as Hfirst.
  { intros w'. rewrite fs_after_placeholder. by apply lookup_insert_ne. }
  destruct (bool_decide (output_path ∈ ["-b"; "-i"; "-f"]%string)) eqn:HK.
  - apply bool_decide_eq_true in HK. specialize (Hn HK).
    rewrite fs_after_placeholder. change (key "-n") with "-n"%string.
    rewrite lookup_insert_ne by done.
    destruct (bool_decide (output_path ∈ ["/dev/null"; "nul"]%string));
      [done|apply Hfirst].
  - destruct (bool_decide (output_path ∈ ["/dev/null"; "nul"]%string));
      [done|apply Hfirst].
Qed.

(** C9. In test mode, when a [generate_binary] call succeeds, the same
    call made again succeeds as well, whatever the first call left behind;
    neither call spawns a process, and after each call the destination
    holds exactly the placeholder written by that call. *)
Theorem C9_repeat_in_test_mode (w w1 : world) (self : QuantisGenerator.t)
    (count : Z) (output_path : string) (l1 : list entry) :
  test_mode self = true ->
  run os (generate_binary self count output_path) w = (l1, w1, Ok tt) ->
  exists l2 w2,
    run os (generate_binary self count output_path) w1 = (l2, w2, Ok tt)
    /\ spawned l1 = [] /\ spawned l2 = []
    /\ (output_path ∉ ["/dev/null"; "nul"]%string ->
        read w1 output_path
        = Some ("test_data_" +:+ str_Z (randint 1000 9999 (entropy w)).1)
        /\ read w2 output_path
           = Some ("test_data_"
                   +:+ str_Z (randint 1000 9999 (entropy w1)).1)).
Proof.
  intros Hm Hrun.
  destruct (binary_test_inv w w1 self count output_path l1 Hm Hrun)
    as (lv & wv & Hv & [Ha Hb] & -> & Hsp1).
  apply validate_ok_inv in Hv as (_ & Hc & Hv).
  set (W1 := after_execute_binary wv output_path).
  assert (entropy wv = entropy w) as Hent.
  { destruct Hv as [[_ ->]|(_ & _ & _ & _ & ->)]; reflexivity. }
  (* the second validation passes, and the second execution goes through *)
  assert (exists lv2 wv2,
            run os (_validate_inputs self count output_path) W1
            = (lv2, wv2, Ok tt)
            /\ spawned lv2 = [] /\ entropy wv2 = entropy W1
            /\ execute_binary_ok wv2 output_path) as
    (lv2 & wv2 & Hv2 & Hsp2 & Hent2 & Hok2).
  { destruct Hv as [[Hs ->]|(Hs & Hd & Hpd & Hprobe & ->)].
    - (* sentinel: no check is made *)
      exists [], W1. rewrite validate_sentinel by done.
      repeat split; try done.
      + destruct (decide (output_path ∈ ["/dev/null"; "nul"]%string))
          as [|HS]; [by left|right].
        destruct Ha as [Ha|Ha]; [done|].
        eapply open_ok_again; [exact Ha|].
        by apply after_execute_target.
      + left. by apply sentinel_not_kind_flag.
    - (* a real path: the same checks pass on the changed file system *)
      set (m := fs w) in *. set (path := to_str output_path) in *.
      set (par := parent_str path) in *.
      set (mk := marker output_path) in *.
      assert (output_path ∉ ["/dev/null"; "nul"]%string) as HS.
      { intros Hin. apply literal_sentinel in Hin as [? _]. congruence. }
      assert (parent_str mk = par) as Hpm by apply parent_of_marker.
      destruct Hprobe as [Hpar Hmk]. rewrite Hpm in Hpar.
      assert (par <> path) as Hne1.
      { intros E. unfold is_dir in Hd. by rewrite <- E, Hpar in Hd. }
      assert (par <> mk) as Hne2.
      { intros E. rewrite <- E, Hpar in Hmk.
        by destruct Hmk as [?|[? ?]]. }
      assert (fs W1 !! path = Some (File ("test_data_"
                +:+ str_Z (randint 1000 9999 (entropy w)).1) true)) as Htgt.
      { subst W1. by rewrite (after_execute_target _ _ HS). }
      assert (fs W1 !! par = Some (Dir Writable)) as Hpar1.
      { subst W1. rewrite after_execute_frame; [|done|].
        - simpl. by rewrite lookup_delete_ne.
        - intros HK. by apply kind_flag_paths in HK as (_ & _ & ? & _). }
      assert (probe_ok (fs W1) mk) as Hprobe1.
      { split; [by rewrite Hpm|].
        destruct (decide (mk = path)) as [->|Hne3]; [eauto|].
        left. subst W1. rewrite after_execute_frame; [|done|].
        - simpl. apply lookup_delete_eq.
        - intros HK. by apply kind_flag_paths in HK as (_ & ? & _). }
      destruct (validate_ok_run W1 self count output_path Hc Hs)
        as (lv2 & Hrun2 & Hsp2); fold path par mk.
      { unfold is_dir. by rewrite Htgt. }
      { unfold is_dir. by rewrite Hpar1. }
      { exact Hprobe1. }
      fold mk in Hrun2.
      exists lv2, (with_fs W1 (delete mk (fs W1))).
      repeat split; try done.
      + right. destruct Ha as [Ha|Ha]; [done|].
        destruct (decide (mk = path)) as [E|Hne3].
        * destruct Ha as (Hnonempty & Hsep & _).
          repeat split; try done. right. simpl.
          change (key output_path) with path. rewrite E.
          rewrite lookup_delete_eq. split; [done|].
          exists Writable. fold par.
          rewrite lookup_delete_ne by congruence. by rewrite Hpar1.
        * eapply open_ok_again; [exact Ha|]. simpl.
          change (key output_path) with path.
          rewrite lookup_delete_ne by done. exact Htgt.
      + destruct (decide (output_path ∈ ["-b"; "-i"; "-f"]%string))
          as [HK|HK]; [right|by left].
        destruct (after_execute_flag_file
                    (with_fs w (delete mk m)) output_path HK) as [c Hc'].
        fold W1 in Hc'.
        apply kind_flag_paths in HK as (Hn1 & Hn2 & _).
        repeat split; try done. left. exists c.
        unfold after_first_placeholder.
        rewrite (bool_decide_eq_false_2 _ HS).
        rewrite fs_after_placeholder. change (key "-n") with "-n"%string.
        rewrite lookup_insert_ne by done. simpl.
        rewrite lookup_delete_ne by done. exact Hc'. }
  destruct (binary_test_run W1 wv2 self count output_path lv2 Hm Hv2 Hsp2
              Hok2) as (l2 & Hrun2 & Hspl2).
  exists l2, (after_execute_binary wv2 output_path).
  repeat split; try done.
  - unfold read. subst W1. rewrite after_execute_target by done.
    by rewrite Hent.
  - unfold read. rewrite after_execute_target by done. by rewrite Hent2.
Qed.

(** C10 (the code at the failing input). ["./nul"] normalises to ["nul"],
    so the validation recognises it as a sentinel and makes no check; the
    test-mode execution compares the string as given, does not recognise
    it, and writes a placeholder file [nul], whereas for the literal
    ["nul"] it writes nothing. *)
Theorem C10_sentinel_recognised_twice_differently :
  is_sentinel "./nul" = true
  /\ _validate_inputs Examples.tester 1 "./nul" = ret tt
  /\ trace (run os (generate_binary Examples.tester 1 "./nul")
              Examples.machine)
     = [Did (FileOpenW "./nul") None; Did (RandInt 1000 9999) 5711;
        Did (FileWrite "./nul" "test_data_5711") None]
  /\ read Examples.machine "nul" = None
  /\ read (final (run os (generate_binary Examples.tester 1 "./nul")
                    Examples.machine)) "nul"
     = Some "test_data_5711"%string
  /\ trace (run os (generate_binary Examples.tester 1 "nul")
              Examples.machine) = []
  /\ read (final (run os (generate_binary Examples.tester 1 "nul")
                    Examples.machine)) "nul" = None.
Proof. repeat split; by vm_compute. Qed.

End PosixWorld.

(** ** The claims at concrete calls *)

Section Instances.
Import Posix PosixPath Examples.


(** C2 at [generate_binary(-1, "/tmp/test.bin")]. *)
Lemma C2_witness :
  -1 <= 0
  /\ generate_binary QuantisGenerator.default (-1) "/tmp/test.bin"
     = raise (QuantisValidationError "Count must be positive").
Proof.
  split; [lia|].
  exact (proj1 (C2_nonpositive_count_rejected_first (V := Z) os machine
           QuantisGenerator.default (-1) "/tmp/test.bin" None None None
           ltac:(lia))).
Defined.





(** C6 on the example machine: the tool is there and ready; a missing tool
    and a failing tool give [False]. *)
Lemma C6_witness :
  Path "/dev/null" = "/dev/null"%string /\ Path "nul" = "nul"%string
  /\ is_ready tester = ret true
  /\ answer (run os (is_ready QuantisGenerator.default) machine) = Ok true
  /\ spawned (trace (run os (is_ready (with_tool "missing")) machine))
     = [["missing"; "-u"; "0"; "-b"; "/dev/null"; "-n"; "1"]%string]
  /\ answer (run os (is_ready (with_tool "missing")) machine) = Ok false.
Proof.
  split; [reflexivity|]. split; [reflexivity|]. split; [|split; [|split]].
  - exact (proj1 (C6_is_ready os machine tester eq_refl eq_refl)
             eq_refl).
  - exact (proj1 (proj2 (proj2 (proj2
             (proj2 (C6_is_ready os machine QuantisGenerator.default
                       eq_refl eq_refl) eq_refl)))) eq_refl).
  - exact (proj1 (proj2
             (proj2 (C6_is_ready os machine (with_tool "missing")
                       eq_refl eq_refl) eq_refl))).
  - exact (proj1 (proj2 (proj2 (proj2 (proj2
             (proj2 (C6_is_ready os machine (with_tool "missing")
                       eq_refl eq_refl) eq_refl)))))
             (QuantisNotFoundError
                "easyquantis executable not found: missing")
             eq_refl eq_refl).
Defined.

(** C7 as stated fails on the append-only directory [/data]: the touch
    creates the marker, the unlink is refused, the call fails with the
    validation error, and the marker stays. *)
Lemma C7_counterexample :
  read machine "/data/.write_test" = None
  /\ answer (run os (generate_binary tester 100 "/data/out.bin") machine)
     = Raise (QuantisValidationError
                "No write permission for directory: /data")
  /\ written (trace (run os (generate_binary tester 100 "/data/out.bin")
                       machine))
     = ["/data/.write_test"; "/data/.write_test"]%string
  /\ read (final (run os (generate_binary tester 100 "/data/out.bin")
                    machine)) "/data/.write_test" = Some ""%string.
Proof. repeat split; by vm_compute. Qed.

(** C7 (amended) at [generate_binary(100, "/x/out.bin")]. *)
Lemma C7_witness :
  is_sentinel "/x/out.bin" = false
  /\ answer (run os (_validate_inputs tester 100 "/x/out.bin") machine)
     = Ok tt
  /\ fs (final (run os (_validate_inputs tester 100 "/x/out.bin") machine))
       !! key (marker "/x/out.bin") = None.
Proof.
  split; [reflexivity|]. split; [reflexivity|].
  exact (proj1 (proj2 (proj2 (proj1 (C7_probe_marker_lifetime machine tester
           100 "/x/out.bin" eq_refl) eq_refl)))).
Defined.

(** C9 at [generate_binary(100, "/x/out.bin")], twice. *)
Lemma C9_witness :
  test_mode tester = true
  /\ run os (generate_binary tester 100 "/x/out.bin") machine
     = (trace (run os (generate_binary tester 100 "/x/out.bin") machine),
        final (run os (generate_binary tester 100 "/x/out.bin") machine),
        Ok tt)
  /\ exists l2 w2,
       run os (generate_binary tester 100 "/x/out.bin")
         (final (run os (generate_binary tester 100 "/x/out.bin") machine))
       = (l2, w2, Ok tt)
       /\ read w2 "/x/out.bin" = Some "test_data_1042"%string.
Proof.
  split; [reflexivity|]. split; [by vm_compute|].
  destruct (C9_repeat_in_test_mode machine
              (final (run os (generate_binary tester 100 "/x/out.bin")
                        machine))
              tester 100 "/x/out.bin"
              (trace (run os (generate_binary tester 100 "/x/out.bin")
                        machine))
              eq_refl ltac:(by vm_compute))
    as (l2 & w2 & Hrun & _ & _ & Hread).
  exists l2, w2. split; [exact Hrun|].
  refine (proj2 (Hread _)). apply (bool_decide_eq_false_1 _). reflexivity.
Defined.

End Instances.

(** ** More about the generator, in any environment *)

Section GeneratorFacts.
Context {fl : PathFlavour} {W : Type} (h : handler W).

(** The test-mode loop over [enumerate(args)], started in the middle of
    the list. *)
Lemma test_loop_targets (pre suf : list string) :
  for_each (enumerate_from (length pre) suf) (fun '(i, arg) =>
    if bool_decide (arg ∈ ["-b"; "-i"; "-f"]%string)
       && bool_decide (i + 1 < length (pre ++ suf))%nat then
      let output_path := nth (i + 1) (pre ++ suf) ""%string in
      if negb (bool_decide (output_path ∈ ["/dev/null"; "nul"]%string)) then
        bind (call_raising id (FileOpenW output_path)) (fun _ =>
        bind (call (RandInt 1000 9999)) (fun r =>
        call_raising id (FileWrite output_path ("test_data_" +:+ str_Z r))))
      else ret tt
    else ret tt)
  = for_each (placeholder_targets suf) placeholder.
Proof.
  revert pre. induction suf as [|a rest IH]; intros pre; [reflexivity|].
  cbn [enumerate_from for_each].
  specialize (IH (pre ++ [a])).
  rewrite length_app in IH. cbn [length] in IH.
  replace (length pre + 1)%nat with (S (length pre)) in IH by lia.
  rewrite <- app_assoc in IH. cbn [app] in IH. rewrite IH. clear IH.
  destruct rest as [|b rest'].
  - (* the last argument: nothing follows it *)
    assert (bool_decide (length pre + 1 < length (pre ++ [a]))%nat = false)
      as ->.
    { apply bool_decide_eq_false. rewrite length_app. simpl. lia. }
    rewrite andb_false_r. reflexivity.
  - assert (bool_decide (length pre + 1 < length (pre ++ a :: b :: rest'))%nat
            = true) as ->.
    { apply bool_decide_eq_true. rewrite length_app. simpl. lia. }
    assert (nth (length pre + 1) (pre ++ a :: b :: rest') ""%string = b)
      as ->.
    { rewrite app_nth2 by lia.
      replace (length pre + 1 - length pre)%nat with 1%nat by lia.
      reflexivity. }
    rewrite andb_true_r. cbn [placeholder_targets].
    destruct (bool_decide (a ∈ ["-b"; "-i"; "-f"]%string)); [|reflexivity].
    destruct (bool_decide (b ∈ ["/dev/null"; "nul"]%string)); reflexivity.
Qed.

(** One placeholder write, in any environment. *)
Lemma run_placeholder_any (p : string) (w : W) :
  let o := run h (placeholder p) w in
  spawned (trace o) = [] /\ opened (trace o) = [p]
  /\ (answer o = Ok tt
      \/ exists e, answer o = Raise e
                   /\ (refused_open (trace o) e \/ refused_write (trace o) e)).
Proof.
  unfold placeholder, refused_open, refused_write. simpl.
  destruct (respond h (FileOpenW p) w) as [[e|] w1]; simpl.
  { repeat split. right. exists e. split; [reflexivity|]. left.
    exists p. by left. }
  destruct (respond h (RandInt 1000 9999) w1) as [x w2]; simpl.
  destruct (respond h (FileWrite p _) w2) as [[e|] w3]; simpl.
  - repeat split. right. exists e. split; [reflexivity|]. right.
    eexists p, _. right. right. by left.
  - repeat split. by left.
Qed.

(** A sequence of placeholder writes stops at the first refusal. *)
Lemma run_placeholders (targets : list string) (w : W) :
  let o := run h (for_each targets placeholder) w in
  spawned (trace o) = []
  /\ (exists rest, targets = opened (trace o) ++ rest)
  /\ (answer o = Ok tt -> opened (trace o) = targets)
  /\ (forall e, answer o = Raise e ->
        refused_open (trace o) e \/ refused_write (trace o) e).
Proof.
  revert w. induction targets as [|p rest IH]; intros w.
  { simpl. split; [done|]. split; [by exists []|]. split; [done|]. intros e [=]. }
  cbn [for_each]. cbv zeta. rewrite run_bind.
  pose proof (run_placeholder_any p w) as (Hs & Ho & Ha).
  destruct (run h (placeholder p) w) as [[l w1] [[]|e]];
    unfold trace, answer in *; simpl in *.
  - specialize (IH w1). cbv zeta in IH.
    destruct (run h (for_each rest placeholder) w1) as [[l2 w2] r].
    unfold trace, answer in *. simpl in *.
    destruct IH as (Hs2 & [rest' Hrest] & Hok & Herr).
    unfold spawned, opened in *. rewrite !flat_map_app, Hs, Hs2, Ho.
    split; [done|]. split; [|split].
    + exists rest'. simpl. by rewrite <- Hrest.
    + intros Hr. simpl. f_equal. by apply Hok.
    + intros e Hr. unfold refused_open, refused_write.
      destruct (Herr e Hr) as [[q Hq]|(q & d & Hq)].
      * left. exists q. apply in_or_app. by right.
      * right. exists q, d. apply in_or_app. by right.
  - unfold opened in *. rewrite Ho. split; [done|]. split; [|split].
    + by exists rest.
    + discriminate.
    + intros e' [= <-]. by destruct Ha as [[=]|(e' & [= <-] & Hr)].
Qed.

(** Every generation operation is its validation followed by a check and
    the execution primitive. *)
Lemma generation_shape {V} `{Number V} (self : QuantisGenerator.t) count
    output_path (min_val max_val : option V) separator (op : py unit) :
  op = generate_binary self count output_path
  \/ op = generate_integers self count output_path min_val max_val separator
  \/ op = generate_floats self count output_path min_val max_val separator ->
  exists (check : bool) msg args,
    op = bind (_validate_inputs self count output_path) (fun _ =>
           if check then raise (QuantisValidationError msg)
           else _execute_command self args).
Proof.
  intros [->|[->| ->]].
  - by exists false, ""%string, ["-b"; output_path; "-n"; str_Z count]%string.
  - rewrite integers_unfold. unfold bounded_contract. by eexists _, _, _.
  - rewrite floats_unfold. unfold bounded_contract. by eexists _, _, _.
Qed.

Lemma execute_test_targets (self : QuantisGenerator.t) (args : list string) :
  test_mode self = true ->
  _execute_command self args
  = for_each (placeholder_targets args) placeholder.
Proof.
  intros Hm. unfold _execute_command. rewrite Hm.
  apply (test_loop_targets [] args).
Qed.

(** An argument appended after one that is not a kind flag adds no
    placeholder, whatever it spells. *)
Lemma placeholder_targets_snoc (args : list string) (a x : string) :
  a ∉ ["-b"; "-i"; "-f"]%string ->
  placeholder_targets (args ++ [a; x]) = placeholder_targets (args ++ [a]).
Proof.
  intros Ha. induction args as [|b rest IH].
  - simpl. by rewrite (bool_decide_eq_false_2 _ Ha).
  - destruct rest as [|c rest'].
    + simpl in *. by rewrite (bool_decide_eq_false_2 _ Ha), !app_nil_r.
    + change ((b :: c :: rest') ++ [a; x])
        with (b :: (c :: rest') ++ [a; x]).
      change ((b :: c :: rest') ++ [a])
        with (b :: (c :: rest') ++ [a]).
      change ((c :: rest') ++ [a; x]) with (c :: rest' ++ [a; x]) in *.
      change ((c :: rest') ++ [a]) with (c :: rest' ++ [a]) in *.
      cbn [placeholder_targets] in *. by rewrite IH.
Qed.

(** The decimal form of an integer never spells a kind flag. *)
Lemma str_Z_not_flag (z : Z) : str_Z z ∉ ["-b"; "-i"; "-f"]%string.
Proof.
  intros Hin. apply list_elem_of_In in Hin.
  unfold str_Z, NilZero.string_of_int, NilZero.string_of_uint, Z.to_int
    in Hin.
  destruct z as [|p|p]; [|destruct (Pos.to_uint p)..]; simpl in Hin;
    destruct Hin as [Hin|[Hin|[Hin|[]]]]; discriminate.
Qed.

Section Operations.
Context {V : Type} `{Number V}.

(** X1. In test mode no generator operation ever calls [subprocess.run],
    in any environment and whatever the arguments: not the execution
    primitive on any argument list, not a generation call, not
    [is_ready]. *)
Theorem test_mode_never_spawns (w : W) (self : QuantisGenerator.t)
    (args : list string) (count : Z) (output_path : string)
    (min_val max_val : option V) (separator : option string) :
  test_mode self = true ->
  spawned (trace (run h (_execute_command self args) w)) = []
  /\ spawned (trace (run h (generate_binary self count output_path) w)) = []
  /\ spawned (trace (run h (generate_integers self count output_path
                              min_val max_val separator) w)) = []
  /\ spawned (trace (run h (generate_floats self count output_path
                              min_val max_val separator) w)) = []
  /\ spawned (trace (run h (is_ready self) w)) = [].
Proof.
  intros Hm.
  assert (forall a w', spawned (trace (run h (_execute_command self a) w'))
                       = []) as Hexec.
  { intros a w'. rewrite (execute_test_targets self a Hm).
    apply (run_placeholders (placeholder_targets a) w'). }
  assert (forall op,
            op = generate_binary self count output_path
            \/ op = generate_integers self count output_path
                      min_val max_val separator
            \/ op = generate_floats self count output_path
                      min_val max_val separator ->
            spawned (trace (run h op w)) = []) as Hop.
  { intros op Hop.
    destruct (generation_shape self count output_path min_val max_val
                separator op Hop) as (check & msg & a & ->).
    rewrite run_bind.
    pose proof (validate_outcome h self count output_path w) as (Hs & _).
    destruct (run h (_validate_inputs self count output_path) w)
      as [[l w1] [[]|e]]; unfold trace in *; simpl in *; [|exact Hs].
    destruct check; simpl.
    - by rewrite app_nil_r.
    - specialize (Hexec a w1).
      destruct (run h (_execute_command self a) w1) as [[l2 w2] r].
      unfold trace, spawned in *. simpl in *.
      by rewrite flat_map_app, Hs, Hexec. }
  split; [apply Hexec|]. repeat split; try (apply Hop; auto).
  unfold is_ready. by rewrite Hm.
Qed.

(** X2. In test mode the execution primitive is the sequence of
    placeholder writes to the arguments that follow a kind flag and are not
    literally a sentinel, in order.  The files it opens are a prefix of
    that list, and the whole list when it returns normally; an argument in
    the last position triggers nothing, so appending one after a
    non-flag argument changes nothing, even when it spells a kind flag. *)
Theorem test_mode_placeholder_targets (w : W) (self : QuantisGenerator.t)
    (args : list string) :
  test_mode self = true ->
  _execute_command self args
  = for_each (placeholder_targets args) placeholder
  /\ (exists rest, placeholder_targets args
                   = opened (trace (run h (_execute_command self args) w))
                     ++ rest)
  /\ (answer (run h (_execute_command self args) w) = Ok tt ->
      opened (trace (run h (_execute_command self args) w))
      = placeholder_targets args)
  /\ (forall a x, a ∉ ["-b"; "-i"; "-f"]%string ->
      _execute_command self (args ++ [a; x])
      = _execute_command self (args ++ [a])).
Proof.
  intros Hm.
  pose proof (execute_test_targets self args Hm) as Heq.
  split; [exact Heq|]. rewrite Heq.
  pose proof (run_placeholders (placeholder_targets args) w)
    as (_ & Hpre & Hok & _).
  split; [exact Hpre|]. split; [exact Hok|].
  intros a x Ha. rewrite !execute_test_targets by done.
  by rewrite placeholder_targets_snoc.
Qed.

Lemma targets_of_generation (flag p sc : string) (opts : list string) :
  flag ∈ ["-b"; "-i"; "-f"]%string ->
  placeholder_targets (sc :: opts) = [] ->
  placeholder_targets (flag :: p :: "-n"%string :: sc :: opts)
  = generation_targets p.
Proof.
  intros Hflag Hopts.
  change (placeholder_targets (flag :: p :: "-n"%string :: sc :: opts))
    with ((if bool_decide (flag ∈ ["-b"; "-i"; "-f"]%string)
              && negb (bool_decide (p ∈ ["/dev/null"; "nul"]%string))
           then [p] else [])
          ++ (if bool_decide (p ∈ ["-b"; "-i"; "-f"]%string) && true
              then ["-n"%string] else [])
          ++ [] ++ placeholder_targets (sc :: opts)).
  rewrite Hopts, (bool_decide_eq_true_2 _ Hflag), andb_true_r.
  unfold generation_targets.
  destruct (bool_decide (p ∈ ["/dev/null"; "nul"]%string));
    destruct (bool_decide (p ∈ ["-b"; "-i"; "-f"]%string)); reflexivity.
Qed.

Lemma options_no_targets (count : Z) (min_val max_val : option V)
    (separator : option string) (kind_flag output_path : string)
    (self : QuantisGenerator.t) :
  (forall v : V, str v ∉ ["-b"; "-i"; "-f"]%string) ->
  placeholder_targets
    (drop 6 (invocation_vector self kind_flag count output_path
               min_val max_val separator)) = [].
Proof.
  intros Hv.
  pose proof (bool_decide_eq_false_2 _ (str_Z_not_flag count)) as Hc.
  assert (forall v : V, bool_decide (str v ∈ ["-b"; "-i"; "-f"]%string)
                        = false) as Hv'
    by (intros v; apply bool_decide_eq_false_2, Hv).
  destruct min_val, max_val, separator;
    cbn [invocation_vector app drop placeholder_targets];
    rewrite ?Hc, ?Hv'; reflexivity.
Qed.

(** X3. In test mode the three generation calls write the same placeholder
    files: the output path (unless it is literally a sentinel) and ["-n"]
    when the output path spells a kind flag.  The count, the bounds and the
    separator never cause a write, even a separator spelled like a kind
    flag, as long as no bound prints as a kind flag (an [int] never
    does); with bounds in order, [generate_integers] and [generate_floats]
    are the very program [generate_binary]. *)
Theorem test_mode_generation_targets (self : QuantisGenerator.t)
    (count : Z) (output_path : string) (min_val max_val : option V)
    (separator : option string) :
  test_mode self = true ->
  (forall v : V, str v ∉ ["-b"; "-i"; "-f"]%string) ->
  generate_binary self count output_path
  = bind (_validate_inputs self count output_path) (fun _ =>
      for_each (generation_targets output_path) placeholder)
  /\ generate_integers self count output_path min_val max_val separator
     = bind (_validate_inputs self count output_path) (fun _ =>
         if bounds_out_of_order min_val max_val then
           raise (QuantisValidationError
                    "Minimum value must be less than maximum value")
         else for_each (generation_targets output_path) placeholder)
  /\ generate_floats self count output_path min_val max_val separator
     = bind (_validate_inputs self count output_path) (fun _ =>
         if bounds_out_of_order min_val max_val then
           raise (QuantisValidationError
                    "Minimum value must be less than maximum value")
         else for_each (generation_targets output_path) placeholder)
  /\ (bounds_out_of_order min_val max_val = false ->
      generate_integers self count output_path min_val max_val separator
      = generate_binary self count output_path
      /\ generate_floats self count output_path min_val max_val separator
         = generate_binary self count output_path).
Proof.
  intros Hm Hv.
  cut (generate_binary self count output_path
       = bind (_validate_inputs self count output_path) (fun _ =>
           for_each (generation_targets output_path) placeholder)
       /\ generate_integers self count output_path min_val max_val separator
          = bind (_validate_inputs self count output_path) (fun _ =>
              if bounds_out_of_order min_val max_val then
                raise (QuantisValidationError
                         "Minimum value must be less than maximum value")
              else for_each (generation_targets output_path) placeholder)
       /\ generate_floats self count output_path min_val max_val separator
          = bind (_validate_inputs self count output_path) (fun _ =>
              if bounds_out_of_order min_val max_val then
                raise (QuantisValidationError
                         "Minimum value must be less than maximum value")
              else for_each (generation_targets output_path) placeholder)).
  { intros (Hb & Hi & Hf). do 3 (split; [done|]).
    intros Hord. rewrite Hi, Hf, Hb, Hord. by split. }
  assert (forall flag, flag ∈ ["-b"; "-i"; "-f"]%string ->
            _execute_command self
              (drop 3 (invocation_vector self flag count output_path
                         min_val max_val separator))
            = for_each (generation_targets output_path) placeholder) as Hexec.
  { intros flag Hflag. rewrite (execute_test_targets _ _ Hm). f_equal.
    apply (targets_of_generation flag output_path (str_Z count)
             (drop 7 (invocation_vector self flag count output_path
                        min_val max_val separator)) Hflag).
    exact (options_no_targets count min_val max_val separator flag
             output_path self Hv). }
  split; [|split].
  - unfold generate_binary.
    rewrite (execute_test_targets _ _ Hm).
    rewrite (targets_of_generation "-b" output_path (str_Z count) []);
      [reflexivity|by apply (bool_decide_eq_true_1 _)|reflexivity].
  - rewrite integers_unfold. unfold bounded_contract.
    rewrite Hexec; [reflexivity|by apply (bool_decide_eq_true_1 _)].
  - rewrite floats_unfold. unfold bounded_contract.
    rewrite Hexec; [reflexivity|by apply (bool_decide_eq_true_1 _)].
Qed.

Lemma validate_opens_nothing (self : QuantisGenerator.t) count output_path
    (w : W) :
  opened (trace (run h (_validate_inputs self count output_path) w)) = [].
Proof.
  unfold _validate_inputs.
  destruct (count <=? 0); [reflexivity|].
  destruct (bool_decide _); [reflexivity|].
  simpl. repeat answer_call; reflexivity.
Qed.




End Operations.
End GeneratorFacts.

(** ** More about the path validation in the POSIX-like world *)

Section PosixValidation.
Import Posix PosixPath PosixPathFacts.

Local Arguments exists_ : simpl never.
Local Arguments is_dir : simpl never.
Local Arguments touch : simpl never.
Local Arguments unlink : simpl never.
Local Arguments key : simpl never.
Local Arguments to_str : simpl never.
Local Arguments parent_str : simpl never.
Local Arguments joinpath_str : simpl never.

Lemma touch_ok_cases (m m1 : gmap string node) (k : string) :
  touch m k = (None, m1) ->
  (m1 = m /\ is_Some (m !! k))
  \/ (m !! k = None /\ m1 = <[k := File "" true]> m).
Proof.
  unfold touch, create_error.
  destruct (m !! k) as [[c []|[]]|] eqn:Hk; try (by intros [=]);
    try (intros [= <-]; left; eauto).
  destruct (m !! parent_str k) as [[|[]]|]; try (by intros [=]);
    intros [= <-]; right; auto.
Qed.

Lemma touch_ok_again (m m1 : gmap string node) (k : string) :
  touch m k = (None, m1) -> touch m1 k = (None, m1).
Proof.
  intros Ht. destruct (touch_ok_cases _ _ _ Ht) as [[-> _]|[Hk ->]];
    [exact Ht|].
  unfold touch. by rewrite lookup_insert_eq.
Qed.

Lemma unlink_denied_same (m m2 : gmap string node) (k : string) err :
  unlink m k = (Some err, m2) -> m2 = m.
Proof.
  unfold unlink. repeat case_match; intros [=]; by subst.
Qed.

Lemma validate_verdict (w : world) (self : QuantisGenerator.t) (count : Z)
    (output_path : string) :
  0 < count -> is_sentinel output_path = false ->
  answer (run os (_validate_inputs self count output_path) w)
  = (verdict_on (fs w) output_path).1
  /\ final (run os (_validate_inputs self count output_path) w)
     = with_fs w (verdict_on (fs w) output_path).2.
Proof.
  intros Hc Hs.
  rewrite (run_validate_posix w self count output_path Hc Hs).
  unfold verdict_on. cbv zeta.
  destruct (is_dir (fs w) _); [by rewrite with_fs_same|].
  destruct (exists_ (fs w) _); simpl; [|by rewrite with_fs_same].
  destruct (is_dir (fs w) _); simpl; [|by rewrite with_fs_same].
  destruct (touch (fs w) _) as [[err|] m1]; [done|].
  by destruct (unlink m1 _) as [[err|] m2].
Qed.

(** X7. The validation is repeatable: validating the same request again,
    in the world the first validation left behind (marker removed, or left
    in place by a refused unlink), gives the same answer and leaves the
    same world. *)
Theorem validation_is_repeatable (w : world) (self : QuantisGenerator.t)
    (count : Z) (output_path : string) :
  let once := run os (_validate_inputs self count output_path) w in
  let twice := run os (_validate_inputs self count output_path)
                 (final once) in
  answer twice = answer once /\ final twice = final once.
Proof.
  cbv zeta.
  destruct (Z.leb_spec count 0) as [Hle|Hc].
  { unfold _validate_inputs. by destruct (Z.leb_spec count 0); [|lia]. }
  destruct (is_sentinel output_path) eqn:Hs.
  { by rewrite validate_sentinel. }
  destruct (validate_verdict w self count output_path Hc Hs) as [Ha Hf].
  rewrite Hf, Ha.
  destruct (validate_verdict (with_fs w (verdict_on (fs w) output_path).2)
              self count output_path Hc Hs) as [-> ->].
  simpl.
  cut (verdict_on (verdict_on (fs w) output_path).2 output_path
       = verdict_on (fs w) output_path).
  { intros ->. by split. }
  clear Ha Hf. generalize (fs w) as m. clear w. intros m.
  (* on file systems alone *)
  unfold verdict_on. cbv zeta.
  set (path := to_str output_path). set (par := parent_str path).
  set (mk := marker output_path).
  assert (parent_str mk = par) as Hpm by apply parent_of_marker.
  destruct (is_dir m path) eqn:Hd; simpl; [by rewrite Hd|].
  destruct (exists_ m par) eqn:Hpe; simpl; [|by rewrite Hd, Hpe].
  destruct (is_dir m par) eqn:Hpd; simpl; [|by rewrite Hd, Hpe, Hpd].
  assert (exists mode, m !! par = Some (Dir mode)) as [mode Hpar].
  { unfold is_dir in Hpd. destruct (m !! par) as [[|mode]|]; try done.
    eauto. }
  destruct (touch m mk) as [[err|] m1] eqn:Ht; simpl.
  { apply touch_denied_same in Ht as Hm1. subst m1.
    by rewrite Hd, Hpe, Hpd, Ht. }
  destruct (unlink m1 mk) as [[err|] m2] eqn:Hu; simpl.
  - (* the unlink was refused: the marker stays, and is refused again *)
    apply unlink_denied_same in Hu as Hm2. subst m2.
    assert (is_dir m1 path = false /\ exists_ m1 par = true
            /\ is_dir m1 par = true) as (-> & -> & ->).
    { destruct (touch_ok_cases _ _ _ Ht) as [[-> _]|[Hk ->]]; [done|].
      assert (par <> mk) as Hne by congruence.
      unfold is_dir, exists_ in *.
      rewrite (lookup_insert_ne _ mk par) by done. rewrite Hpar.
      split; [|done].
      destruct (decide (mk = path)) as [->|Hne2].
      - by rewrite lookup_insert_eq.
      - by rewrite lookup_insert_ne. }
    simpl. by rewrite (touch_ok_again _ _ _ Ht), Hu.
  - (* the probe went through: the marker is gone, the rest is as before *)
    destruct (probe_ok_inv _ _ _ _ Ht Hu) as [[Hw Hmk] ->].
    rewrite Hpm, Hpar in Hw. injection Hw as ->.
    assert (par <> mk) as Hne.
    { intros E. rewrite <- E, Hpar in Hmk. by destruct Hmk as [?|[? ?]]. }
    assert (is_dir (delete mk m) path = false
            /\ exists_ (delete mk m) par = true
            /\ is_dir (delete mk m) par = true) as (-> & -> & ->).
    { unfold is_dir, exists_ in *.
      rewrite (lookup_delete_ne _ mk par) by done. rewrite Hpar.
      split; [|done].
      destruct (decide (mk = path)) as [->|Hne2].
      - by rewrite lookup_delete_eq.
      - by rewrite lookup_delete_ne. }
    simpl.
    assert (probe_ok (delete mk m) mk) as Hok.
    { split; [|left; apply lookup_delete_eq].
      rewrite Hpm, lookup_delete_ne by done. exact Hpar. }
    destruct (probe_ok_run _ _ Hok) as (m3 & -> & ->).
    by rewrite (delete_id (delete mk m)) by apply lookup_delete_eq.
Qed.

End PosixValidation.

(** ** The commands, in any environment *)

Section CliFacts.
Import Cli.
Context {fl : PathFlavour} `{Builtins} {W : Type} (h : handler W).

Lemma run_from_py {A} (p : py A) (w : W) :
  run h (from_py p) w =
  let '(l, w1, r) := run h p w in
  (l, w1, ([], match r with
               | Ok a => Returned a
               | Raise e => Raised (Exc e)
               end)).
Proof.
  revert w. induction p as [[a|e]|X ev k IH]; intros w; simpl; try done.
  destruct (respond h ev w) as [x w1]. rewrite IH.
  by destruct (run h (k x) w1) as [[l w2] r].
Qed.

Lemma run_after_output {A} (out : list (stream * string)) (p : cmd A)
    (w : W) :
  run h (after_output out p) w =
  let '(l, w1, (out', r)) := run h p w in (l, w1, (out ++ out', r)).
Proof.
  revert w. induction p as [[out' r]|X ev k IH]; intros w; simpl; try done.
  destruct (respond h ev w) as [x w1]. rewrite IH.
  by destruct (run h (k x) w1) as [[l w2] [out' r]].
Qed.

Lemma run_then {A B} (p : cmd A) (f : A -> cmd B) (w : W) :
  run h (then_ p f) w =
  match run h p w with
  | (l, w1, (out, Returned a)) =>
      let '(l2, w2, (out2, r)) := run h (f a) w1 in
      (l ++ l2, w2, (out ++ out2, r))
  | (l, w1, (out, Raised e)) => (l, w1, (out, Raised e))
  end.
Proof.
  revert w. induction p as [[out [a|e]]|X ev k IH]; intros w; simpl.
  - rewrite run_after_output.
    by destruct (run h (f a) w) as [[l2 w2] [out2 r]].
  - reflexivity.
  - destruct (respond h ev w) as [x w1]. rewrite IH.
    destruct (run h (k x) w1) as [[l w2] [out [a|e]]]; [|reflexivity].
    by destruct (run h (f a) w2) as [[l2 w3] [out2 r]].
Qed.

Lemma run_try {A} (p : cmd A) clauses (w : W) :
  run h (try_ p clauses) w =
  match run h p w with
  | (l, w1, (out, Returned a)) => (l, w1, (out, Returned a))
  | (l, w1, (out, Raised e)) =>
      match first_clause clauses e with
      | Some body =>
          let '(l2, w2, (out2, r)) := run h body w1 in
          (l ++ l2, w2, (out ++ out2, r))
      | None => (l, w1, (out, Raised e))
      end
  end.
Proof.
  revert w. induction p as [[out [a|e]]|X ev k IH]; intros w; simpl.
  - reflexivity.
  - destruct (first_clause clauses e) as [body|]; [|reflexivity].
    rewrite run_after_output.
    by destruct (run h body w) as [[l2 w2] [out2 r]].
  - destruct (respond h ev w) as [x w1]. rewrite IH.
    destruct (run h (k x) w1) as [[l w2] [out [a|e]]]; [reflexivity|].
    destruct (first_clause clauses e) as [body|]; [|reflexivity].
    by destruct (run h body w2) as [[l2 w3] [out2 r]].
Qed.

(** A [try] around a generator call and its success line, whose clauses
    report every exception of the generator and abort. *)
Lemma reports_try (op : py unit) (line : string) clauses (w : W) :
  (forall e, exists hints,
     first_clause clauses (Exc e)
     = Some (Ret ((stderr, failure_prefix e +:+ str_exn e) :: hints,
                  Raised Abort))
     /\ all_stderr hints /\ (length hints <= 1)%nat) ->
  reports (run h op w)
    (run h (try_ (then_ (from_py op) (fun _ => echo line false)) clauses) w)
    line.
Proof.
  intros Hclauses. unfold reports.
  rewrite run_try, run_then, run_from_py.
  destruct (run h op w) as [[l w1] [[]|e]]; unfold trace, final, answer;
    simpl.
  - rewrite app_nil_r. repeat split; try done; try (by intros e [=]).
  - destruct (Hclauses e) as (hints & -> & Hall & Hlen). simpl.
    rewrite app_nil_r. split; [done|]. split; [done|].
    split; [by intros [=]|]. intros e' [= <-]. eauto.
Qed.

Section Reports.
Context {V : Type} `{Number V}.

(** X8. The commands [bin], [integer] and [floats] make exactly the
    environment calls of the generator call they wrap and let no exception
    of it escape: when the call returns, the only output is the success
    line on the standard output; when it raises, the first line, on the
    error stream, is ["Validation error: "], ["Error: "] or ["Unexpected
    error: "] (by the class of the exception) followed by [str(e)], at most
    one hint follows on the error stream, nothing is printed on the
    standard output, and the command ends with [click.Abort]. *)
Theorem commands_report_and_abort (w : W) (count : Z) (output_path : string)
    (min max : option V) (separator : option string) (test : bool) :
  let mode := (if test then " (test mode)" else "")%string in
  let range_info :=
    match min, max with
    | Some lo, Some hi => " (range: " +:+ str lo +:+ "-" +:+ str hi +:+ ")"
    | _, _ => ""%string
    end in
  reports
    (run h (generate_binary (QuantisGenerator_ test) count output_path) w)
    (run h (bin count output_path test) w)
    ("✓ Generated " +:+ str_Z count +:+ " bytes to "
     +:+ output_path +:+ mode)
  /\ reports
       (run h (generate_integers (QuantisGenerator_ test) count output_path
                 min max separator) w)
       (run h (integer count output_path min max separator test) w)
       ("✓ Generated " +:+ str_Z count +:+ " integers to "
        +:+ output_path +:+ range_info +:+ mode)
  /\ reports
       (run h (generate_floats (QuantisGenerator_ test) count output_path
                 min max separator) w)
       (run h (floats count output_path min max separator test) w)
       ("✓ Generated " +:+ str_Z count +:+ " floats to "
        +:+ output_path +:+ range_info +:+ mode).
Proof.
  intros mode range_info. split; [|split].
  - apply reports_try. intros e. unfold all_stderr.
    destruct e; simpl; try destruct (is_in _ _); simpl;
      eexists; (split; [reflexivity|]);
      (split; [repeat constructor|simpl; lia]).
  - apply reports_try. intros e. unfold all_stderr.
    destruct e; simpl; try destruct (is_in _ _ && is_in _ _);
      try destruct (is_in _ _); simpl;
      eexists; (split; [reflexivity|]);
      (split; [repeat constructor|simpl; lia]).
  - apply reports_try. intros e. unfold all_stderr.
    destruct e; simpl; try destruct (is_in _ _ && is_in _ _);
      try destruct (is_in _ _); simpl;
      eexists; (split; [reflexivity|]);
      (split; [repeat constructor|simpl; lia]).
Qed.

(** X9. [check] makes the environment calls of [is_ready] and ends
    normally exactly when [is_ready] returns [True], with the one line
    ["✓ ..."] on the standard output; with [--test] that is always the
    case, and no environment call is made.  When [is_ready] returns
    [False], the [click.Abort] raised in the [try] body is itself caught by
    [except Exception], so after the ["✗ ..."] line (and the hint, outside
    test mode) a further line ["Error during check: "] with an empty
    message goes to the error stream before the command aborts.  An
    exception of [is_ready] is reported as ["Error during check: "] and
    [str(e)], and the command aborts. *)
Theorem check_outcomes (w : W) (test : bool) :
  let g := run h (is_ready (QuantisGenerator_ test)) w in
  let o := run h (check test) w in
  let mode := (if test then " (test mode)" else "")%string in
  trace o = trace g /\ final o = final g
  /\ (answer g = Ok true ->
      answer o
      = ([(stdout, "✓ easyquantis is ready and device is accessible"
                   +:+ mode)], Returned tt))
  /\ (answer g = Ok false ->
      answer o
      = ([(stdout, "✗ easyquantis is not accessible or device not ready")]
         ++ (if negb test then
               [(stderr, "Hint: Make sure 'easyquantis' is installed, in your PATH, and a Quantis device is connected."%string)]
             else [])
         ++ [(stderr, "Error during check: "%string)], Raised Abort))
  /\ (forall e, answer g = Raise e ->
      answer o = ([(stderr, "Error during check: " +:+ str_exn e)],
                  Raised Abort))
  /\ (test = true ->
      o = ([], w,
           ([(stdout, "✓ easyquantis is ready and device is accessible (test mode)"%string)],
            Returned tt))).
Proof.
  intros g o mode. subst g o. unfold check.
  rewrite run_try, run_then, run_from_py.
  assert (test = true ->
          run h (is_ready (QuantisGenerator_ test)) w = ([], w, Ok true))
    as Htest by (by intros ->).
  destruct (run h (is_ready (QuantisGenerator_ test)) w)
    as [[l w1] [[]|e]] eqn:Hg; unfold trace, final, answer; simpl.
  - rewrite app_nil_r. repeat split; try done.
    intros ->. specialize (Htest eq_refl). by inversion Htest.
  - destruct test.
    + specialize (Htest eq_refl). by inversion Htest.
    + simpl. rewrite !app_nil_r.
      do 2 (split; [done|]). split; [done|]. split; [by intros _|].
      split; [by intros e [=]|done].
  - rewrite app_nil_r. repeat split; try done.
    + by intros e' [= <-].
    + intros ->. specialize (Htest eq_refl). by inversion Htest.
Qed.

Lemma in_spawned (c : list string) (r : result completed) (l : list entry) :
  In (Did (SubprocessRun c) r) l -> In c (spawned l).
Proof.
  intros Hin. unfold spawned. apply in_flat_map.
  exists (Did (SubprocessRun c) r). split; [done|]. by left.
Qed.

(** What a generation call of any mode hands to [subprocess.run]: nothing,
    or one command line that starts with the executable and the device
    selector of the generator. *)
Lemma spawned_shape (w : W) (self : QuantisGenerator.t) count output_path
    (min_val max_val : option V) separator (op : py unit) :
  op = generate_binary self count output_path
  \/ op = generate_integers self count output_path min_val max_val separator
  \/ op = generate_floats self count output_path min_val max_val separator ->
  (spawned (trace (run h op w)) = []
   \/ exists args,
        spawned (trace (run h op w))
        = [[easyquantis_path self; "-u"%string;
            str_Z (usb_device_index self)] ++ args])
  /\ (test_mode self = true -> spawned (trace (run h op w)) = []).
Proof.
  intros Hop.
  destruct (generation_shape self count output_path min_val max_val
              separator op Hop) as (chk & msg & a & ->).
  destruct (test_mode self) eqn:Hm.
  - assert (spawned (trace (run h (bind (_validate_inputs self count
              output_path) (fun _ => if chk
                then raise (QuantisValidationError msg)
                else _execute_command self a)) w)) = []) as Hnil;
      [|by split; [left|]].
    rewrite run_bind.
    pose proof (validate_outcome h self count output_path w) as (Hs & _).
    destruct (run h (_validate_inputs self count output_path) w)
      as [[l w1] [[]|e]]; unfold trace in *; simpl in *; [|exact Hs].
    destruct chk; simpl.
    + by rewrite app_nil_r.
    + rewrite (execute_test_targets self a Hm).
      pose proof (run_placeholders h (placeholder_targets a) w1) as (Hs2 & _).
      destruct (run h (for_each (placeholder_targets a) placeholder) w1)
        as [[l2 w2] r].
      unfold trace, spawned in *. simpl in *.
      by rewrite flat_map_app, Hs, Hs2.
  - split; [|done].
    destruct (spawned_after_validation h self count output_path chk msg a w
                Hm) as [Hs|[Hs _]]; [right; by exists a|by left].
Qed.

(** A spawn refused with [FileNotFoundError] ends a generation call of
    normal mode with the error naming the executable. *)
Lemma spawn_not_found (w : W) (self : QuantisGenerator.t) count output_path
    (min_val max_val : option V) separator (op : py unit)
    (c : list string) :
  test_mode self = false ->
  op = generate_binary self count output_path
  \/ op = generate_integers self count output_path min_val max_val separator
  \/ op = generate_floats self count output_path min_val max_val separator ->
  In (Did (SubprocessRun c) (Raise (OSError FileNotFoundError)))
     (trace (run h op w)) ->
  answer (run h op w)
  = Raise (QuantisNotFoundError
             ("easyquantis executable not found: "
              +:+ easyquantis_path self)).
Proof.
  intros Hm Hop.
  destruct (generation_shape self count output_path min_val max_val
              separator op Hop) as (chk & msg & a & ->).
  rewrite run_bind.
  pose proof (validate_outcome h self count output_path w) as (Hs & _).
  destruct (run h (_validate_inputs self count output_path) w)
    as [[l w1] [[]|e]]; unfold trace, answer in *; simpl in *.
  - destruct chk; simpl.
    + rewrite app_nil_r. intros Hin. apply in_spawned in Hin.
      rewrite Hs in Hin. destruct Hin.
    + pose proof (run_execute_normal h self a w1 Hm) as Hx.
      cbv zeta in Hx. destruct (respond h _ w1) as [r w2]. rewrite Hx.
      simpl. intros Hin. apply in_app_or in Hin as [Hin|[Hin|[]]].
      * apply in_spawned in Hin. rewrite Hs in Hin. destruct Hin.
      * apply (f_equal spawn_answer) in Hin. simpl in Hin.
        injection Hin as ->. reflexivity.
  - intros Hin. apply in_spawned in Hin. rewrite Hs in Hin. destruct Hin.
Qed.

(** How a command relates to the generator call it wraps. *)
Lemma run_command (op : py unit) (line : string) clauses (w : W) :
  run h (try_ (then_ (from_py op) (fun _ => echo line false)) clauses) w
  = match run h op w with
    | (l, w1, Ok _) => (l, w1, ([(stdout, line)], Returned tt))
    | (l, w1, Raise e) =>
        match first_clause clauses (Exc e) with
        | Some body =>
            let '(l2, w2, (out2, r)) := run h body w1 in
            (l ++ l2, w2, (out2, r))
        | None => (l, w1, ([], Raised (Exc e)))
        end
    end.
Proof.
  rewrite run_try, run_then, run_from_py.
  destruct (run h op w) as [[l w1] [[]|e]]; simpl; [by rewrite app_nil_r|].
  destruct (first_clause clauses (Exc e)); [|done].
  by destruct (run h c w1) as [[l2 w2] [out2 r]].
Qed.

(** X10. When the common validation passes and the lower bound is not below
    the upper bound, [integer] and [floats] print exactly two lines on the
    error stream, the validation error of the ordering check and the hint
    about [--min] and [--max] (the message contains both "minimum" and
    "maximum" once lowered), and abort; no process is started and no file
    is opened. *)
Theorem out_of_order_bounds_hint (w : W) (count : Z) (output_path : string)
    (lo hi : V) (separator : option string) (test : bool) :
  ge lo hi = true ->
  answer (run h (_validate_inputs (QuantisGenerator_ test) count
                   output_path) w) = Ok tt ->
  let lines :=
    [(stderr, "Validation error: Minimum value must be less than maximum value"%string);
     (stderr, "Hint: Make sure --min is less than --max."%string)] in
  let i := run h (integer count output_path (Some lo) (Some hi) separator
                    test) w in
  let f := run h (floats count output_path (Some lo) (Some hi) separator
                    test) w in
  answer i = (lines, Raised Abort) /\ answer f = (lines, Raised Abort)
  /\ spawned (trace i) = [] /\ spawned (trace f) = []
  /\ opened (trace i) = [] /\ opened (trace f) = [].
Proof.
  intros Hge Hv lines i f. subst i f. unfold integer, floats.
  rewrite !run_command, integers_unfold, floats_unfold.
  unfold bounded_contract. rewrite !run_bind.
  pose proof (validate_outcome h (QuantisGenerator_ test) count output_path w)
    as (Hs & _).
  pose proof (validate_opens_nothing h (QuantisGenerator_ test) count
                output_path w) as Ho.
  destruct (run h (_validate_inputs (QuantisGenerator_ test) count
                     output_path) w) as [[l w1] [[]|e]];
    unfold answer, trace in *; simpl in *; [|discriminate].
  rewrite Hge. simpl.
  rewrite (lower_ascii "Minimum value must be less than maximum value")
    by reflexivity.
  simpl. rewrite !app_nil_r. by repeat split.
Qed.

(** A command makes the environment calls of the generator call it
    wraps, and no other. *)
Lemma command_trace (w : W) (count : Z) (output_path : string)
    (min_val max_val : option V) (separator : option string) (test : bool) :
  trace (run h (bin count output_path test) w)
  = trace (run h (generate_binary (QuantisGenerator_ test) count
                    output_path) w)
  /\ trace (run h (integer count output_path min_val max_val separator
                     test) w)
     = trace (run h (generate_integers (QuantisGenerator_ test) count
                       output_path min_val max_val separator) w)
  /\ trace (run h (floats count output_path min_val max_val separator
                     test) w)
     = trace (run h (generate_floats (QuantisGenerator_ test) count
                       output_path min_val max_val separator) w).
Proof.
  split; [|split]; refine (proj1 (reports_try _ _ _ _ _));
    intros e; unfold all_stderr;
    destruct e; simpl; try destruct (is_in _ _ && is_in _ _);
    try destruct (is_in _ _); simpl;
    eexists; (split; [reflexivity|]);
    (split; [repeat constructor|simpl; lia]).
Qed.

(** X11. Outside test mode, when [subprocess.run] refuses the command line
    with [FileNotFoundError], each generation command prints exactly the
    error naming the executable and the hint about [PATH] on the error
    stream and aborts; [check] prints the "✗" line, its hint, and, because
    its own [click.Abort] is caught by [except Exception], a last line
    ["Error during check: "] before it aborts. *)
Theorem missing_executable_hint (w : W) (count : Z) (output_path : string)
    (min_val max_val : option V) (separator : option string)
    (c : list string)
    (o : list entry * W * (list (stream * string) * outcome unit)) :
  In (Did (SubprocessRun c) (Raise (OSError FileNotFoundError))) (trace o) ->
  (o = run h (bin count output_path false) w
   \/ o = run h (integer count output_path min_val max_val separator false) w
   \/ o = run h (floats count output_path min_val max_val separator false) w ->
   answer o
   = ([(stderr, "Error: easyquantis executable not found: easyquantis"%string);
       (stderr, "Hint: Make sure 'easyquantis' is installed and available in your PATH."%string)],
      Raised Abort))
  /\ (o = run h (check false) w ->
      answer o
      = ([(stdout, "✗ easyquantis is not accessible or device not ready"%string);
          (stderr, "Hint: Make sure 'easyquantis' is installed, in your PATH, and a Quantis device is connected."%string);
          (stderr, "Error during check: "%string)],
         Raised Abort)).
Proof.
  intros Hin.
  assert (is_in "not found"
            (lower "easyquantis executable not found: easyquantis")
          = true) as Hhint by (by rewrite lower_ascii).
  pose proof (command_trace w count output_path min_val max_val separator
                false) as (Hb & Hi & Hf).
  split.
  - intros [->|[->| ->]].
    + rewrite Hb in Hin.
      apply (spawn_not_found w (QuantisGenerator_ false) count output_path
               min_val max_val separator)
        in Hin; [|done|by left].
      unfold bin. rewrite run_command.
      destruct (run h (generate_binary _ _ _) w) as [[l w1] r].
      assert (r = Raise (QuantisNotFoundError
                "easyquantis executable not found: easyquantis"))
        as -> by exact Hin.
      simpl. by rewrite Hhint.
    + rewrite Hi in Hin.
      apply (spawn_not_found w (QuantisGenerator_ false) count output_path
               min_val max_val separator)
        in Hin; [|done|by right; left].
      unfold integer. rewrite run_command.
      destruct (run h (generate_integers _ _ _ _ _ _) w) as [[l w1] r].
      assert (r = Raise (QuantisNotFoundError
                "easyquantis executable not found: easyquantis"))
        as -> by exact Hin.
      simpl. by rewrite Hhint.
    + rewrite Hf in Hin.
      apply (spawn_not_found w (QuantisGenerator_ false) count output_path
               min_val max_val separator)
        in Hin; [|done|by right; right].
      unfold floats. rewrite run_command.
      destruct (run h (generate_floats _ _ _ _ _ _) w) as [[l w1] r].
      assert (r = Raise (QuantisNotFoundError
                "easyquantis executable not found: easyquantis"))
        as -> by exact Hin.
      simpl. by rewrite Hhint.
  - intros ->. revert Hin. unfold check.
    rewrite run_try, run_then, run_from_py.
    rewrite (run_is_ready_normal h w (QuantisGenerator_ false) eq_refl).
    destruct (respond h (OsPathExists "/dev/null") w) as [b w1].
    cbv zeta. set (null_path := (if b then "/dev/null" else "nul")%string).
    pose proof (spawn_not_found w1 (QuantisGenerator_ false) 1 null_path
                  min_val max_val separator
                  (generate_binary (QuantisGenerator_ false) 1 null_path) c
                  eq_refl (or_introl eq_refl)) as Hnf.
    destruct (run h (generate_binary (QuantisGenerator_ false) 1 null_path)
                w1) as [[l w2] r].
    unfold trace, answer in *. simpl in Hnf.
    assert (In (Did (SubprocessRun c) (Raise (OSError FileNotFoundError)))
               (Did (OsPathExists "/dev/null") b :: l) -> r = Raise
                 (QuantisNotFoundError
                    "easyquantis executable not found: easyquantis"))
      as Hr.
    { intros [Heq|Hl]; [|by apply Hnf].
      apply (f_equal spawn_answer) in Heq. discriminate. }
    destruct r as [[]|e]; simpl.
    + rewrite ?app_nil_r. intros Hin. specialize (Hr Hin). discriminate.
    + destruct (is_NotFound_or_Execution e) eqn:He; simpl.
      * rewrite ?app_nil_r. intros Hin. reflexivity.
      * rewrite ?app_nil_r. intros Hin. specialize (Hr Hin).
        injection Hr as ->. discriminate.
Qed.

(** [check] makes the environment calls of [is_ready], and no other. *)
Lemma check_trace (w : W) (test : bool) :
  trace (run h (check test) w)
  = trace (run h (is_ready (QuantisGenerator_ test)) w).
Proof.
  unfold check. rewrite run_try, run_then, run_from_py.
  destruct (run h (is_ready (QuantisGenerator_ test)) w)
    as [[l w1] [[]|e]]; unfold trace; simpl; rewrite ?app_nil_r; try done.
  destruct test; simpl; by rewrite ?app_nil_r.
Qed.

(** X12. The commands build their generator with the defaults: whatever
    the arguments and the environment, a command starts at most one
    process, its command line begins with ["easyquantis"; "-u"; "0"], and
    with [--test] it starts none. *)
Theorem commands_use_the_default_device (w : W) (count : Z)
    (output_path : string) (min_val max_val : option V)
    (separator : option string) (test : bool)
    (o : list entry * W * (list (stream * string) * outcome unit)) :
  o = run h (check test) w
  \/ o = run h (bin count output_path test) w
  \/ o = run h (integer count output_path min_val max_val separator test) w
  \/ o = run h (floats count output_path min_val max_val separator test) w ->
  (length (spawned (trace o)) <= 1)%nat
  /\ (forall c, In c (spawned (trace o)) ->
        take 3 c = ["easyquantis"; "-u"; "0"]%string)
  /\ (test = true -> spawned (trace o) = []).
Proof.
  intros Ho.
  assert (spawned (trace o) = []
          \/ exists args,
               spawned (trace o)
               = [["easyquantis"; "-u"; "0"]%string ++ args]) as Hshape.
  { pose proof (command_trace w count output_path min_val max_val separator
                  test) as (Hb & Hi & Hf).
    destruct Ho as [->|[->|[->| ->]]].
    - pose proof (check_trace w test) as ->.
      destruct test; [by left|].
      rewrite (run_is_ready_normal h w (QuantisGenerator_ false) eq_refl).
      destruct (respond h (OsPathExists "/dev/null") w) as [b w1].
      cbv zeta.
      set (null_path := (if b then "/dev/null" else "nul")%string).
      pose proof (spawned_shape w1 (QuantisGenerator_ false) 1 null_path
                    min_val max_val separator
                    (generate_binary (QuantisGenerator_ false) 1 null_path)
                    (or_introl eq_refl)) as [Hs _].
      by destruct (run h (generate_binary (QuantisGenerator_ false) 1
                            null_path) w1) as [[l w2] r].
    - rewrite Hb.
      apply (spawned_shape w (QuantisGenerator_ test) count output_path
               min_val max_val separator). by left.
    - rewrite Hi.
      apply (spawned_shape w (QuantisGenerator_ test) count output_path
               min_val max_val separator). by right; left.
    - rewrite Hf.
      apply (spawned_shape w (QuantisGenerator_ test) count output_path
               min_val max_val separator). by right; right. }
  assert (test = true -> spawned (trace o) = []) as Htest.
  { intros ->.
    pose proof (command_trace w count output_path min_val max_val separator
                  true) as (Hb & Hi & Hf).
    destruct Ho as [->|[->|[->| ->]]].
    - by rewrite (check_trace w true).
    - rewrite Hb.
      apply (spawned_shape w (QuantisGenerator_ true) count output_path
               min_val max_val separator); [by left|done].
    - rewrite Hi.
      apply (spawned_shape w (QuantisGenerator_ true) count output_path
               min_val max_val separator); [by right; left|done].
    - rewrite Hf.
      apply (spawned_shape w (QuantisGenerator_ true) count output_path
               min_val max_val separator); [by right; right|done]. }
  split; [|split; [|exact Htest]].
  - destruct Hshape as [->|[args ->]]; simpl; lia.
  - intros c Hc. destruct Hshape as [Hs|[args Hs]]; rewrite Hs in Hc.
    + destruct Hc.
    + destruct Hc as [<-|[]]. reflexivity.
Qed.

End Reports.
End CliFacts.

(** ** The hint about [PATH]

    The hint is chosen by looking for ["not found"] in the lowered message,
    and the message of a failed command quotes the command line and the
    error text of the tool. *)

Section HintFacts.
Import Cli.

Lemma is_ascii_text_app (a b : string) :
  is_ascii_text (a +:+ b) = is_ascii_text a && is_ascii_text b.
Proof.
  unfold is_ascii_text. induction a as [|x a IH]; [reflexivity|].
  change (list_ascii_of_string (String x a +:+ b))
    with (x :: list_ascii_of_string (a +:+ b)).
  cbn [forallb list_ascii_of_string]. by rewrite IH, andb_assoc.
Qed.

Lemma ascii_lower_app (a b : string) :
  ascii_lower (a +:+ b) = ascii_lower a +:+ ascii_lower b.
Proof.
  induction a as [|x a IH]; [reflexivity|].
  change (String (ascii_lower_char x) (ascii_lower (a +:+ b))
          = String (ascii_lower_char x) (ascii_lower a +:+ ascii_lower b)).
  by rewrite IH.
Qed.

Lemma starts_with_app (a s t : string) :
  starts_with a s = true -> starts_with a (s +:+ t) = true.
Proof.
  revert s. induction a as [|x a IH]; intros s; [done|].
  destruct s as [|y s]; [done|].
  change (String y s +:+ t) with (String y (s +:+ t)). cbn [starts_with].
  intros [Hx Ha]%andb_true_iff. by rewrite Hx, (IH s Ha).
Qed.

Lemma is_in_app_l (a s t : string) :
  is_in a s = true -> is_in a (s +:+ t) = true.
Proof.
  induction s as [|y s IH].
  - destruct a; [by destruct t|done].
  - change (String y s +:+ t) with (String y (s +:+ t)). cbn [is_in].
    intros [Hs|Hi]%orb_true_iff.
    + pose proof (starts_with_app a (String y s) t Hs) as Hst.
      change (String y s +:+ t) with (String y (s +:+ t)) in Hst.
      by rewrite Hst.
    + rewrite (IH Hi). apply orb_true_r.
Qed.

Lemma is_in_app_r (a s t : string) :
  is_in a t = true -> is_in a (s +:+ t) = true.
Proof.
  intros Ht. induction s as [|y s IH]; [done|].
  change (String y s +:+ t) with (String y (s +:+ t)). cbn [is_in].
  rewrite IH. apply orb_true_r.
Qed.

Lemma is_ascii_text_uint (d : Decimal.uint) :
  is_ascii_text (NilEmpty.string_of_uint d) = true.
Proof. induction d; done. Qed.

Lemma is_ascii_text_str_Z (z : Z) : is_ascii_text (str_Z z) = true.
Proof.
  unfold str_Z, NilZero.string_of_int, NilZero.string_of_uint.
  destruct (Z.to_int z) as [d|d]; destruct d; try done;
    match goal with
    | |- is_ascii_text (NilEmpty.string_of_uint ?u) = true =>
        apply (is_ascii_text_uint u)
    | |- is_ascii_text (String "-" (NilEmpty.string_of_uint ?u)) = true =>
        apply (is_ascii_text_uint u)
    end.
Qed.

Context {fl : PathFlavour} `{Builtins} {W : Type} (h : handler W).

(** A spawn of [generate_binary] that was answered with a non-zero exit
    status: the command line, and the error of the call. *)
Lemma binary_spawn_failed (w : W) (self : QuantisGenerator.t) (count : Z)
    (output_path : string) (c : list string) (r : completed) :
  test_mode self = false ->
  In (Did (SubprocessRun c) (Ok r))
     (trace (run h (generate_binary self count output_path) w)) ->
  returncode r <> 0 ->
  answer (run h (generate_binary self count output_path) w)
  = Raise (QuantisExecutionError
             ("Command failed: "
              +:+ Py.join " " [easyquantis_path self; "-u";
                               str_Z (usb_device_index self); "-b";
                               output_path; "-n"; str_Z count]%string
              +:+ "
Error: " +:+ Py.stderr r)).
Proof.
  intros Hm Hin Hrc. revert Hin. unfold generate_binary.
  rewrite run_bind.
  pose proof (validate_outcome h self count output_path w) as (Hs & _).
  destruct (run h (_validate_inputs self count output_path) w)
    as [[l w1] [[]|e]]; unfold trace, answer in *; simpl in *.
  - pose proof (run_execute_normal h self
                  ["-b"; output_path; "-n"; str_Z count]%string w1 Hm) as Hx.
    cbv zeta in Hx. destruct (respond h _ w1) as [r' w2]. rewrite Hx.
    simpl. intros Hin. apply in_app_or in Hin as [Hin|[Hin|[]]].
    + apply in_spawned in Hin. rewrite Hs in Hin. destruct Hin.
    + apply (f_equal spawn_answer) in Hin. simpl in Hin.
      injection Hin as ->.
      by destruct (Z.eqb_spec (returncode r) 0).
  - intros Hin. apply in_spawned in Hin. rewrite Hs in Hin. destruct Hin.
Qed.

(** X13. The hint about [PATH] does not tell a missing executable from a
    failing one: outside test mode, when the tool runs and exits with a
    non-zero status, and the output path and the error text of the tool
    are ASCII, [bin] prints the command line and the error text, and then
    the hint to install [easyquantis] whenever ["not found"] occurs, in
    any case of the letters, in the error text of the tool or in the
    output path. *)
Theorem path_hint_on_failing_tool (w : W) (count : Z) (output_path : string)
    (c : list string) (r : completed) :
  In (Did (SubprocessRun c) (Ok r))
     (trace (run h (bin count output_path false) w)) ->
  returncode r <> 0 ->
  is_ascii_text output_path = true ->
  is_ascii_text (Py.stderr r) = true ->
  is_in "not found" (ascii_lower (Py.stderr r)) = true
  \/ is_in "not found" (ascii_lower output_path) = true ->
  answer (run h (bin count output_path false) w)
  = ([(stderr, "Error: Command failed: easyquantis -u 0 -b " +:+ output_path
               +:+ " -n " +:+ str_Z count +:+ "
Error: " +:+ Py.stderr r);
      (stderr, "Hint: Make sure 'easyquantis' is installed and available in your PATH."%string)],
     Raised Abort).
Proof.
  intros Hin Hrc Hpath Herr Hnf.
  rewrite (proj1 (command_trace (V := Z) h w count output_path None None
                    None false)) in Hin.
  apply (binary_spawn_failed w (QuantisGenerator_ false) count output_path c
           r eq_refl) in Hin; [|done].
  set (msg := ("Command failed: easyquantis -u 0 -b " +:+ output_path
               +:+ " -n " +:+ str_Z count +:+ "
Error: " +:+ Py.stderr r)%string).
  assert (answer (run h (generate_binary (QuantisGenerator_ false) count
                           output_path) w)
          = Raise (QuantisExecutionError msg)) as Hg.
  { rewrite Hin. do 2 f_equal. unfold msg, Py.join.
    cbn [String.concat easyquantis_path usb_device_index QuantisGenerator_].
    rewrite !append_assoc. reflexivity. }
  assert (is_in "not found" (lower msg) = true) as Hhint.
  { rewrite lower_ascii.
    - unfold msg. rewrite !ascii_lower_app.
      apply is_in_app_r. destruct Hnf as [Hnf|Hnf].
      + by do 3 apply is_in_app_r.
      + by apply is_in_app_l.
    - unfold msg. by rewrite !is_ascii_text_app, Hpath, Herr,
        is_ascii_text_str_Z. }
  unfold bin. rewrite run_command.
  destruct (run h (generate_binary _ _ _) w) as [[l w1] g].
  unfold answer in Hg. simpl in Hg. subst g. simpl.
  rewrite Hhint. simpl.
  change ("Error: " +:+ msg)
    with ("Error: Command failed: easyquantis -u 0 -b " +:+ output_path
          +:+ " -n " +:+ str_Z count +:+ "
Error: " +:+ Py.stderr r).
  reflexivity.
Qed.

End HintFacts.

(** ** The further properties at concrete calls *)

Section Scenes.
Import Posix PosixPath Examples Scenarios Cli.

(** X1 at [generate_binary(100, "/x/test.bin")] of a test-mode generator. *)
Lemma X1_witness :
  test_mode tester = true
  /\ spawned (trace (run os (generate_binary tester 100 "/x/test.bin")
                       machine)) = [].
Proof.
  split; [reflexivity|].
  exact (proj1 (proj2 (test_mode_never_spawns (V := Z) os machine tester []
           100 "/x/test.bin" None None None eq_refl))).
Defined.

(** X2 at the arguments [["-b", "/x/a", "-s"]] followed by ["-i"]. *)
Lemma X2_witness :
  test_mode tester = true
  /\ _execute_command tester (["-b"; "/x/a"]%string ++ ["-s"; "-i"]%string)
     = _execute_command tester (["-b"; "/x/a"]%string ++ ["-s"]%string).
Proof.
  split; [reflexivity|].
  exact (proj2 (proj2 (proj2 (test_mode_placeholder_targets os machine tester
           ["-b"; "/x/a"]%string eq_refl)))
         "-s"%string "-i"%string
         (bool_decide_eq_false_1
            ("-s"%string ∈ ["-b"; "-i"; "-f"]%string) eq_refl)).
Defined.

(** X3 at [generate_integers(100, "/x/a", 1, 6, "-i")] of a test-mode
    generator. *)
Lemma X3_witness :
  test_mode tester = true
  /\ generate_integers tester 100 "/x/a" (Some 1) (Some 6) (Some "-i"%string)
     = generate_binary tester 100 "/x/a".
Proof.
  split; [reflexivity|].
  exact (proj1 (proj2 (proj2 (proj2 (test_mode_generation_targets (V := Z)
           tester 100 "/x/a" (Some 1) (Some 6) (Some "-i"%string) eq_refl
           str_Z_not_flag))) eq_refl)).
Defined.




(** X10 at [integer 100 /x/ints.txt --min 6 --max 1]. *)
Lemma X10_witness :
  ge 6 1 = true
  /\ answer (run os (integer 100 "/x/ints.txt" (Some 6) (Some 1) None false)
               machine)
     = ([(stderr, "Validation error: Minimum value must be less than maximum value"%string);
         (stderr, "Hint: Make sure --min is less than --max."%string)],
        Raised Abort).
Proof.
  split; [reflexivity|].
  exact (proj1 (out_of_order_bounds_hint (V := Z) os machine 100
           "/x/ints.txt" 6 1 None false eq_refl eq_refl)).
Defined.

(** X11 at [bin 100 /x/test.bin] on a machine without the executable. *)
Lemma X11_witness :
  In (Did (SubprocessRun ["easyquantis"; "-u"; "0"; "-b"; "/x/test.bin";
                          "-n"; "100"]%string)
          (Raise (OSError FileNotFoundError)))
     (trace (run os (bin 100 "/x/test.bin" false) no_tool))
  /\ answer (run os (bin 100 "/x/test.bin" false) no_tool)
     = ([(stderr, "Error: easyquantis executable not found: easyquantis"%string);
         (stderr, "Hint: Make sure 'easyquantis' is installed and available in your PATH."%string)],
        Raised Abort).
Proof.
  assert (In (Did (SubprocessRun ["easyquantis"; "-u"; "0"; "-b";
                                  "/x/test.bin"; "-n"; "100"]%string)
                  (Raise (OSError FileNotFoundError)))
             (trace (run os (bin 100 "/x/test.bin" false) no_tool))) as Hin.
  { vm_compute. auto 10. }
  split; [exact Hin|].
  exact (proj1 (missing_executable_hint (V := Z) os no_tool 100 "/x/test.bin"
           None None None _ _ Hin) (or_introl eq_refl)).
Defined.

(** X12 at [floats 10 /x/f.txt -s ;]. *)
Lemma X12_witness :
  Forall (fun c => take 3 c = ["easyquantis"; "-u"; "0"]%string)
    (spawned (trace (run os (floats (V := Z) 10 "/x/f.txt" None None
                               (Some ";"%string) false) machine))).
Proof.
  exact (proj2 (List.Forall_forall _ _)
           (proj1 (proj2 (commands_use_the_default_device (V := Z) os machine
              10 "/x/f.txt" None None (Some ";"%string) false _
              (or_intror (or_intror (or_intror eq_refl))))))).
Defined.

(** X13 at [bin 100 /x/test.bin] where the tool reports
    ["Device not found"]. *)
Lemma X13_witness :
  answer (run os (bin 100 "/x/test.bin" false) no_device)
  = ([(stderr, "Error: Command failed: easyquantis -u 0 -b /x/test.bin -n 100
Error: Device not found"%string);
      (stderr, "Hint: Make sure 'easyquantis' is installed and available in your PATH."%string)],
     Raised Abort).
Proof.
  assert (In (Did (SubprocessRun ["easyquantis"; "-u"; "0"; "-b";
                                  "/x/test.bin"; "-n"; "100"]%string)
                  (Ok (Completed 1 "Device not found")))
             (trace (run os (bin 100 "/x/test.bin" false) no_device))) as Hin.
  { vm_compute. auto 10. }
  exact (path_hint_on_failing_tool os no_device 100 "/x/test.bin" _ _ Hin
           ltac:(discriminate) eq_refl eq_refl (or_introl eq_refl)).
Defined.

End Scenes.
